(** * Contour: local model lifecycle of the chat assistant

  A shallow embedding of the model store, the downloader, the model loader
  and the chat bridge of the Contour plugins
  ([thonny/plugins/llama_download.py], [thonny/plugins/pydantic_ai_assistant.py]
  and [scripts/download_llama_model.py]), and the properties of their
  specification.

  Python [str] values are [string]s, the file system is a finite map from
  paths to nodes, the network and the inference engine are oracles passed
  to the functions that call them, and code that raises returns a
  [Result]. *)

From Stdlib Require Import ZArith QArith Qminmax Ascii String List Lia Bool.
From stdpp Require Import base option list sorting gmap strings.

Local Open Scope Z_scope.

(** ** Python strings *)

Module PyStr.

(** [c.isspace()] on the ASCII range, as [str.strip()] uses it. *)
Definition is_space (c : ascii) : bool :=
  match c with
  | "009" | "010" | "011" | "012" | "013" | " "
  | "028" | "029" | "030" | "031" => true
  | _ => false
  end%char.

(** [c.lower()] on the ASCII range. *)
Definition lower_char (c : ascii) : ascii :=
  let n := nat_of_ascii c in
  if (65 <=? n)%nat && (n <=? 90)%nat then ascii_of_nat (n + 32) else c.

Fixpoint lower (s : string) : string :=
  match s with
  | EmptyString => EmptyString
  | String c r => String (lower_char c) (lower r)
  end.

(** [s.startswith(p)]. *)
Fixpoint startswith (s p : string) : bool :=
  match p, s with
  | EmptyString, _ => true
  | String _ _, EmptyString => false
  | String a p', String b s' => Ascii.eqb a b && startswith s' p'
  end.

(** [s.endswith(p)]. *)
Definition endswith (s p : string) : bool :=
  startswith (String.rev s) (String.rev p).

(** [s.lstrip(chars)] and [s.rstrip(chars)], with the stripped characters
    given as a predicate. *)
Fixpoint lstrip_by (f : ascii → bool) (s : string) : string :=
  match s with
  | EmptyString => EmptyString
  | String c r => if f c then lstrip_by f r else s
  end.

Definition rstrip_by (f : ascii → bool) (s : string) : string :=
  String.rev (lstrip_by f (String.rev s)).

Definition strip_by (f : ascii → bool) (s : string) : string :=
  rstrip_by f (lstrip_by f s).

(** [s.strip()]. *)
Definition strip : string → string := strip_by is_space.

(** [s.strip("/")] and [s.rstrip("/")]. *)
Definition is_slash (c : ascii) : bool := Ascii.eqb c "/"%char.
Definition strip_slash : string → string := strip_by is_slash.
Definition rstrip_slash : string → string := rstrip_by is_slash.

(** Truth value of a string: [bool(s)]. *)
Definition truthy (s : string) : bool :=
  match s with EmptyString => false | _ => true end.

(** [a or b] on strings. *)
Definition or_else (a b : string) : string := if truthy a then a else b.

(** [s.split("/")]: always at least one component. *)
Fixpoint split_slash (s : string) : list string :=
  match s with
  | EmptyString => [EmptyString]
  | String c r =>
      if is_slash c then EmptyString :: split_slash r
      else match split_slash r with
           | h :: t => String c h :: t
           | [] => [String c EmptyString]
           end
  end.

(** ["/".join(l)]. *)
Fixpoint join_slash (l : list string) : string :=
  match l with
  | [] => EmptyString
  | [x] => x
  | x :: r => x +:+ "/" +:+ join_slash r
  end.

(** [c.upper()] on the ASCII range, and [s.upper()]. *)
Definition upper_char (c : ascii) : ascii :=
  let n := nat_of_ascii c in
  if (97 <=? n)%nat && (n <=? 122)%nat then ascii_of_nat (n - 32) else c.

Fixpoint upper (s : string) : string :=
  match s with
  | EmptyString => EmptyString
  | String c r => String (upper_char c) (upper r)
  end.

(** [p in s]. *)
Fixpoint contains (s p : string) : bool :=
  startswith s p ||
  match s with
  | EmptyString => false
  | String _ r => contains r p
  end.

(** ["/" * n]. *)
Fixpoint slashes (n : nat) : string :=
  match n with O => EmptyString | S k => String "/"%char (slashes k) end.

(** [s.split("/", 1)] when ["/" in s]: the text before the first slash and
    the text after it; [None] when there is no slash. *)
Fixpoint split_once (s : string) : option (string * string) :=
  match s with
  | EmptyString => None
  | String c r =>
      if is_slash c then Some (EmptyString, r)
      else match split_once r with
           | Some (a, b) => Some (String c a, b)
           | None => None
           end
  end.

End PyStr.

(** ** [os.path] on POSIX *)

Module OsPath.
Import PyStr.

(** [os.path.isabs(p)]. *)
Definition isabs (p : string) : bool := startswith p "/".

(** [os.path.join(a, b)]. *)
Definition join (a b : string) : string :=
  if startswith b "/" then b
  else if negb (truthy a) || endswith a "/" then a +:+ b
  else a +:+ "/" +:+ b.

(** One iteration of the component loop of [normpath]. *)
Definition norm_step (initial : nat) (new_comps : list string) (comp : string)
  : list string :=
  if bool_decide (comp = "") || bool_decide (comp = ".") then new_comps
  else if negb (bool_decide (comp = ".."))
          || (bool_decide (initial = O) && bool_decide (new_comps = []))
          || bool_decide (last new_comps = Some "..")
       then new_comps ++ [comp]
       else removelast new_comps.

(** The number of leading slashes [normpath] keeps: two when the path
    starts with exactly two, otherwise one or none. *)
Definition initial_slashes (p : string) : nat :=
  if startswith p "/" then
    if startswith p "//" && negb (startswith p "///") then 2%nat else 1%nat
  else O.

(** [os.path.normpath(p)]. *)
Definition normpath (p : string) : string :=
  if negb (truthy p) then "."
  else
    let initial := initial_slashes p in
    let comps := fold_left (norm_step initial) (split_slash p) [] in
    let q := slashes initial +:+ join_slash comps in
    or_else q ".".

(** [os.path.abspath(p)], with the working directory as a parameter. *)
Definition abspath (cwd p : string) : string :=
  normpath (if isabs p then p else join cwd p).

(** [os.path.dirname(p)]: the text up to the last slash, without its
    trailing slashes unless it is made of slashes only. *)
Fixpoint head_upto_slash (s : string) : string :=
  match s with
  | EmptyString => EmptyString
  | String c r =>
      if bool_decide (Exists (λ x, x = "/"%char) (list_ascii_of_string s))
      then String c (head_upto_slash r) else EmptyString
  end.

Definition dirname (p : string) : string :=
  let head := head_upto_slash p in
  if truthy head && negb (bool_decide (head = slashes (String.length head)))
  then rstrip_slash head else head.

End OsPath.

(** ** Python values, exceptions and results *)

Module Py.
Import PyStr.

(** A raised exception: its class name and [str(e)]. *)
Record exn := Exn { exn_class : string; exn_text : string }.

Inductive Result (A : Type) : Type :=
| Ok (a : A)
| Raise (e : exn).
Arguments Ok {A} a.
Arguments Raise {A} e.

(** The values a configuration option or a header can hold. *)
Inductive pyval :=
| VNone
| VBool (b : bool)
| VInt (n : Z)
| VStr (s : string).

(** [bool(v)]. *)
Definition val_truthy (v : pyval) : bool :=
  match v with
  | VNone => false
  | VBool b => b
  | VInt n => negb (n =? 0)
  | VStr s => truthy s
  end.

(** The value of a decimal digit, by its character code. *)
Definition digit_of (c : ascii) : option Z :=
  let n := Z.of_nat (nat_of_ascii c) in
  if (48 <=? n) && (n <=? 57) then Some (n - 48) else None.

(** Decimal digits with single underscores between them, as [int(str)]
    accepts; [after_digit] tells whether the previous character was a
    digit. *)
Fixpoint parse_digits (s : string) (acc : Z) (after_digit : bool) : option Z :=
  match s with
  | EmptyString => if after_digit then Some acc else None
  | String c r =>
      match digit_of c with
      | Some d => parse_digits r (10 * acc + d) true
      | None =>
          if Ascii.eqb c "_"%char && after_digit then parse_digits r acc false
          else None
      end
  end.

(** [int(s)] for a string: surrounding white space, an optional sign,
    decimal digits. [None] stands for [ValueError]. *)
Definition int_of_str (s : string) : option Z :=
  match strip s with
  | String "+"%char r => parse_digits r 0 false
  | String "-"%char r => Z.opp <$> parse_digits r 0 false
  | t => parse_digits t 0 false
  end.

(** [int(v)]: [None] stands for [TypeError] ([int(None)]) and for
    [ValueError] (a string that is not a number). *)
Definition py_int (v : pyval) : option Z :=
  match v with
  | VNone => None
  | VBool b => Some (if b then 1 else 0)
  | VInt n => Some n
  | VStr s => int_of_str s
  end.

Definition AttributeError (what : string) : exn :=
  Exn "AttributeError" what.
Definition ValueError (what : string) : exn := Exn "ValueError" what.

(** [(v or "").strip()]: a value that is true and not a string has no
    [strip]. *)
Definition or_empty_strip (v : pyval) : Result string :=
  match v with
  | VStr s => Ok (strip s)
  | _ => if val_truthy v then Raise (AttributeError "strip") else Ok ""
  end.

End Py.

(** ** The file system and the rest of the world *)

Module Os.
Import PyStr OsPath Py.

(** A regular file with its modification time and contents, or a
    directory with its listing; a directory that cannot be read has no
    listing ([os.listdir] raises). *)
Inductive node :=
| File (mtime : Z) (content : list Byte.byte)
| Dir (listing : option (list string)).

(** What an opened URL answers: the [Content-Length] header, if any, and
    the chunks that successive [read] calls return. *)
Record Response := {
  content_length : option string;
  reads : list (list Byte.byte);
}.

(** What the functions read and never change: the working directory, the
    environment variables, the home directory, [get_thonny_user_dir()],
    and the answer of the network to each URL. *)
Record Env := {
  cwd : string;
  environ : gmap string string;
  home : string;
  thonny_user_dir : string;
  urlopen : string → Result Response;
}.

(** A printed line: plain text on standard output or on standard error, or
    the progress line of the command-line script with its three numbers. *)
Inductive out_line :=
| Line (text : string)
| ErrLine (text : string)
| ProgressLine (pct mb total_mb : Q).

(** What the functions change: the file system, the clock that stamps
    written files, the URLs the functions asked the network for, the calls
    of the progress callback [(percent, MiB so far, MiB total)], and the
    lines printed. *)
Record World := {
  fs : gmap string node;
  clock : Z;
  requests : list string;
  progress : list (Q * Q * Q);
  stdout : list out_line;
}.

Definition with_fs (f : gmap string node → gmap string node) (w : World) : World :=
  {| fs := f (fs w); clock := clock w; requests := requests w;
     progress := progress w; stdout := stdout w |}.

Definition with_request (url : string) (w : World) : World :=
  {| fs := fs w; clock := clock w; requests := requests w ++ [url];
     progress := progress w; stdout := stdout w |}.

Definition with_progress (c : Q * Q * Q) (w : World) : World :=
  {| fs := fs w; clock := clock w; requests := requests w;
     progress := progress w ++ [c]; stdout := stdout w |}.

Definition with_print (line : out_line) (w : World) : World :=
  {| fs := fs w; clock := clock w; requests := requests w;
     progress := progress w; stdout := stdout w ++ [line] |}.

(** [os.path.isfile(p)]. *)
Definition isfile (w : World) (p : string) : bool :=
  match fs w !! p with Some (File _ _) => true | _ => false end.

(** [os.path.isdir(p)]. *)
Definition isdir (w : World) (p : string) : bool :=
  match fs w !! p with Some (Dir _) => true | _ => false end.

(** [os.listdir(p)]. *)
Definition listdir (w : World) (p : string) : Result (list string) :=
  match fs w !! p with
  | Some (Dir (Some names)) => Ok names
  | Some (Dir None) => Raise (Exn "PermissionError" p)
  | Some (File _ _) => Raise (Exn "NotADirectoryError" p)
  | None => Raise (Exn "FileNotFoundError" p)
  end.

(** [os.path.getmtime(p)]; the time of a directory is not modelled. *)
Definition getmtime (w : World) (p : string) : Result Z :=
  match fs w !! p with
  | Some (File t _) => Ok t
  | Some (Dir _) => Ok 0
  | None => Raise (Exn "FileNotFoundError" p)
  end.

(** [os.remove(p)] of a regular file. *)
Definition remove (p : string) (w : World) : World := with_fs (delete p) w.

(** [os.makedirs(d, exist_ok=True)]: the empty name is refused; failures
    of the operating system (permissions, a file in the way) are not
    modelled. *)
Definition makedirs (d : string) (w : World) : Result unit * World :=
  if truthy d then
    (Ok tt,
     match fs w !! d with
     | Some _ => w
     | None => with_fs (insert d (Dir (Some []))) w
     end)
  else (Raise (Exn "FileNotFoundError" d), w).

(** [open(p, "wb")]: the file is created or emptied. *)
Definition open_wb (p : string) (w : World) : World :=
  with_fs (insert p (File (clock w) [])) w.

(** [f.write(chunk)] on the file opened at [p]: the chunk is appended. *)
Definition write (p : string) (chunk : list Byte.byte) (w : World) : World :=
  with_fs (λ m, match m !! p with
                | Some (File t c) => <[p := File t (c ++ chunk)]> m
                | _ => <[p := File (clock w) chunk]> m
                end) w.

End Os.

(** ** [thonny/plugins/llama_download.py] *)

Module LlamaDownload.
Import PyStr OsPath Py Os.

Definition get_models_dir (E : Env) : string :=
  join (thonny_user_dir E) "models".

Definition delete_model (E : Env) (path : string) (w : World)
  : Result bool * World :=
  let models_dir := get_models_dir E in
  let path := normpath (abspath (cwd E) path) in
  let models_dir_abs := normpath (abspath (cwd E) models_dir) in
  if negb (startswith path (models_dir_abs +:+ "/"))
     && negb (bool_decide (path = models_dir_abs))
  then (Ok false, w)
  else if negb (endswith (lower path) ".gguf") then (Ok false, w)
  else if negb (isfile w path) then (Ok false, w)
  else (Ok true, remove path w).

Definition _hf_url (repo filename revision : string) : string :=
  let repo := strip_slash (strip repo) in
  let '(org, name) :=
    match split_once repo with
    | Some (a, b) => (a, b)
    | None => (repo, repo)
    end in
  "https://huggingface.co/" +:+ org +:+ "/" +:+ name +:+ "/resolve/"
    +:+ revision +:+ "/" +:+ filename.

(** [total = int(total) if total else None] on the [Content-Length]
    header. *)
Definition parse_total (header : option string) : Result (option Z) :=
  match header with
  | Some s =>
      if truthy s then
        match int_of_str s with
        | Some n => Ok (Some n)
        | None => Raise (ValueError s)
        end
      else Ok None
  | None => Ok None
  end.

(** [total and total > 0]. *)
Definition total_positive (total : option Z) : bool :=
  match total with
  | Some n => negb (n =? 0) && (0 <? n)
  | None => false
  end.

Definition MiB : Z := 1024 * 1024.

(** [min(100.0, 100 * size / total)], in exact arithmetic. *)
Definition percent (size total : Z) : Q :=
  Qmin 100%Q (inject_Z (100 * size) / inject_Z total)%Q.

(** The three arguments of a progress call. *)
Definition progress_args (size total : Z) : Q * Q * Q :=
  (percent size total,
   (inject_Z size / inject_Z MiB)%Q,
   (inject_Z total / inject_Z MiB)%Q).

(** The [while True] loop of [download_file] over the chunks the response
    returns; an empty chunk, or the end of the response, ends it. *)
Fixpoint read_loop (dest_path : string) (progress_callback : bool)
    (total : option Z) (size : Z) (chunks : list (list Byte.byte)) (w : World)
  : World :=
  match chunks with
  | [] => w
  | chunk :: rest =>
      if bool_decide (chunk = []) then w
      else
        let w := write dest_path chunk w in
        let size := size + Z.of_nat (length chunk) in
        let w :=
          if progress_callback && total_positive total
          then with_progress (progress_args size (default 0 total)) w
          else w in
        read_loop dest_path progress_callback total size rest w
  end.

(** What [download_file] does once it has decided to download.
    [progress_callback] tells whether a callback was given; its calls are
    recorded in the world. *)
Definition transfer (E : Env) (url dest_path : string) (progress_callback : bool)
    (w : World) : Result bool * World :=
  let dest_dir := dirname dest_path in
  match (if truthy dest_dir then makedirs dest_dir w else (Ok tt, w)) with
  | (Raise e, w) => (Raise e, w)
  | (Ok _, w) =>
      let w := with_request url w in
      match urlopen E url with
      | Raise e => (Raise e, w)
      | Ok resp =>
          match parse_total (content_length resp) with
          | Raise e => (Raise e, w)
          | Ok total =>
              let w := open_wb dest_path w in
              (Ok true,
               read_loop dest_path progress_callback total 0 (reads resp) w)
          end
      end
  end.

Definition download_file (E : Env) (url dest_path : string) (force : bool)
    (progress_callback : bool) (w : World) : Result bool * World :=
  if isfile w dest_path && negb force then (Ok false, w)
  else transfer E url dest_path progress_callback w.

Definition download_model (E : Env) (hf_repo hf_file : string) (force : bool)
    (progress_callback : bool) (output_filename : option string) (w : World)
  : Result (option string) * World :=
  let models_dir := get_models_dir E in
  let filename := or_else (default "" output_filename) hf_file in
  let filename :=
    if negb (endswith (lower filename) ".gguf") then filename +:+ ".gguf"
    else filename in
  let dest_path := join models_dir filename in
  if isfile w dest_path && negb force then (Ok (Some dest_path), w)
  else
    let url := _hf_url hf_repo hf_file "main" in
    match download_file E url dest_path force progress_callback w with
    | (Ok _, w') => (Ok (Some dest_path), w')
    | (Raise e, w') => (Raise e, w')
    end.

(** [sorted(names)] on strings: the names in increasing order of their
    characters. *)
Definition sorted_names (names : list string) : list string :=
  merge_sort String.le names.

Definition list_models (E : Env) (w : World) : Result (list (string * string)) :=
  let models_dir := get_models_dir E in
  if negb (isdir w models_dir) then Ok []
  else
    match listdir w models_dir with
    | Raise e => Raise e
    | Ok names =>
        Ok ((λ name, (name, join models_dir name))
              <$> filter (λ name, endswith (lower name) ".gguf" = true)
                    (sorted_names names))
    end.

Definition RECOMMENDED_HF_REPO : string := "TheBloke/TinyLlama-1.1B-Chat-v1.0-GGUF".
Definition RECOMMENDED_HF_FILE : string := "tinyllama-1.1b-chat-v1.0.Q4_K_M.gguf".

Definition download_recommended_model (E : Env) (force : bool)
    (progress_callback : bool) (w : World) : Result (option string) * World :=
  download_model E RECOMMENDED_HF_REPO RECOMMENDED_HF_FILE force
    progress_callback None w.

End LlamaDownload.

(** ** [scripts/download_llama_model.py] *)

Module Script.
Import PyStr OsPath Py Os.

(** The loop of the script's [download_file]: it prints a progress line
    where the plugin calls its callback. *)
Fixpoint read_loop (dest_path : string) (total : option Z) (size : Z)
    (chunks : list (list Byte.byte)) (w : World) : World :=
  match chunks with
  | [] => w
  | chunk :: rest =>
      if bool_decide (chunk = []) then w
      else
        let w := write dest_path chunk w in
        let size := size + Z.of_nat (length chunk) in
        let w :=
          if LlamaDownload.total_positive total
          then
            let '(pct, mb, total_mb) :=
              LlamaDownload.progress_args size (default 0 total) in
            with_print (ProgressLine pct mb total_mb) w
          else w in
        read_loop dest_path total size rest w
  end.

Definition ssl_help : string :=
  "SSL certificate verification failed. On macOS, run:
  /Applications/Python 3.x/Install Certificates.command
or ensure your system has valid CA certificates.".

Definition download_file (E : Env) (url dest_path : string) (force : bool)
    (w : World) : Result bool * World :=
  if isfile w dest_path && negb force then
    (Ok false,
     with_print (Line ("Already exists (use --force to replace): " +:+ dest_path)) w)
  else
    match makedirs (dirname dest_path) w with
    | (Raise e, w) => (Raise e, w)
    | (Ok _, w) =>
        let w := with_print (Line ("Downloading " +:+ url)) w in
        let w := with_print (Line ("  -> " +:+ dest_path)) w in
        let w := with_request url w in
        match urlopen E url with
        | Raise e =>
            (Raise e,
             if contains (upper (exn_text e)) "CERTIFICATE"
                || contains (upper (exn_text e)) "SSL"
             then with_print (ErrLine ssl_help) w else w)
        | Ok resp =>
            match LlamaDownload.parse_total (content_length resp) with
            | Raise e => (Raise e, w)
            | Ok total =>
                let w := open_wb dest_path w in
                let w := read_loop dest_path total 0 (reads resp) w in
                let w :=
                  if match total with Some n => negb (n =? 0) | None => false end
                  then with_print (Line "") w else w in
                (Ok true, with_print (Line "Done.") w)
            end
        end
    end.

(** The destination [main] builds from the models directory and the output
    name. *)
Definition main_dest_path (models_dir out_name : string) : string :=
  let out_name :=
    if negb (endswith (lower out_name) ".gguf") then out_name +:+ ".gguf"
    else out_name in
  join models_dir out_name.

Definition hf_url (repo filename revision : string) : string :=
  let repo := strip_slash (strip repo) in
  let '(org, name) :=
    match split_once repo with
    | Some (a, b) => (a, b)
    | None => (repo, repo)
    end in
  "https://huggingface.co/" +:+ org +:+ "/" +:+ name +:+ "/resolve/"
    +:+ revision +:+ "/" +:+ filename.

(** The platforms on which [os.path] is the POSIX module; on Windows the
    path functions are others, and the script is not modelled there. *)
Inductive platform := Darwin | OtherPosix.

(** What the script takes from outside the repository: [sys.platform],
    [os.path.expanduser], the usage text of [argparse], and the formatting
    of a size in bytes as MiB with one decimal. *)
Record Sys := {
  sys_platform : platform;
  expanduser : string → string;
  usage : string;
  format_mib : Z → string;
}.

Definition get_models_dir (S : Sys) (E : Env) : string :=
  let base := strip (default "" (environ E !! "THONNY_USER_DIR")) in
  let base :=
    if truthy base then expanduser S base
    else
      match sys_platform S with
      | Darwin => expanduser S "~/Library/Thonny"
      | OtherPosix =>
          join (default (expanduser S "~/.config") (environ E !! "XDG_CONFIG_HOME"))
            "Thonny"
      end in
  join base "models".

(** The arguments [argparse] hands to [main]. *)
Record Args := {
  arg_url : option string;
  arg_hf_repo : option string;
  arg_hf_file : option string;
  arg_hf_revision : string;
  arg_output : option string;
  arg_force : bool;
  arg_list : bool;
  arg_models_dir : option string;
}.

(** [os.path.getsize(p)]; the size of a directory is not modelled. *)
Definition getsize (w : World) (p : string) : Result Z :=
  match fs w !! p with
  | Some (File _ c) => Ok (Z.of_nat (length c))
  | Some (Dir _) => Ok 0
  | None => Raise (Exn "FileNotFoundError" p)
  end.

(** [s.split("?")[0]]. *)
Fixpoint before_question (s : string) : string :=
  match s with
  | EmptyString => EmptyString
  | String c r => if Ascii.eqb c "?"%char then EmptyString
                  else String c (before_question r)
  end.

(** [url.rstrip("/").split("/")[-1].split("?")[0]]. *)
Definition url_tail (url : string) : string :=
  before_question (default "" (last (split_slash (rstrip_slash url)))).

(** One line of the listing of [main]. *)
Definition list_line (S : Sys) (models_dir : string) (w : World) (n : string)
  : out_line :=
  match getsize w (join models_dir n) with
  | Ok size => Line ("  " +:+ n +:+ "  (" +:+ format_mib S size +:+ " MiB)")
  | Raise _ => Line ("  " +:+ n)
  end.

Definition main (S : Sys) (E : Env) (args : Args) (w : World) : Result Z * World :=
  let models_dir := or_else (default "" (arg_models_dir args)) (get_models_dir S E) in
  if arg_list args then
    if negb (isdir w models_dir) then
      (Ok 0, with_print (Line ("Models directory does not exist: " +:+ models_dir)) w)
    else
      match listdir w models_dir with
      | Raise e => (Raise e, w)
      | Ok entries =>
          let names :=
            LlamaDownload.sorted_names
              (filter (λ f, endswith (lower f) ".gguf" = true) entries) in
          match names with
          | [] => (Ok 0, with_print (Line ("No .gguf files in " +:+ models_dir)) w)
          | _ =>
              (Ok 0,
               fold_left (λ w n, with_print (list_line S models_dir w n) w) names
                 (with_print (Line ("Models in " +:+ models_dir +:+ ":")) w))
          end
      end
  else
    let source :=
      if truthy (default "" (arg_url args)) then
        Some (default "" (arg_url args),
              or_else (default "" (arg_output args))
                (url_tail (default "" (arg_url args))))
      else if truthy (default "" (arg_hf_repo args))
              && truthy (default "" (arg_hf_file args)) then
        Some (hf_url (default "" (arg_hf_repo args)) (default "" (arg_hf_file args))
                (arg_hf_revision args),
              or_else (default "" (arg_output args)) (default "" (arg_hf_file args)))
      else None in
    match source with
    | None =>
        (Ok 1,
         with_print (ErrLine (String "010"%char
                                "Error: provide --url or both --hf-repo and --hf-file."))
           (with_print (Line (usage S)) w))
    | Some (url, out_name) =>
        let dest_path := main_dest_path models_dir out_name in
        match download_file E url dest_path (arg_force args) w with
        | (Raise e, w) => (Raise e, w)
        | (Ok _, w) =>
            (Ok 0,
             with_print
               (Line ("Set 'llama-cpp-python model path' in Contour to:"
                        +:+ String "010"%char ("  " +:+ dest_path))) w)
        end
    end.

End Script.

(** ** [thonny/plugins/pydantic_ai_assistant.py] *)

Module Assistant.
Import PyStr OsPath Py Os.

(** *** Configuration *)

(** The options the host stores for the plugin. The text options hold
    strings; the two numeric options hold whatever the options page or the
    configuration file put there. *)
Record Config := {
  backend : string;               (* pydantic_ai.backend *)
  model : string;                 (* pydantic_ai.model *)
  base_url : string;              (* pydantic_ai.base_url *)
  llama_model_path : string;      (* pydantic_ai.llama_model_path *)
  llama_chat_format : string;     (* pydantic_ai.llama_chat_format *)
  llama_n_ctx : pyval;            (* pydantic_ai.llama_n_ctx *)
  max_tokens : pyval;             (* pydantic_ai.max_tokens *)
  thinking : string;              (* pydantic_ai.thinking *)
  instructions : string;          (* pydantic_ai.instructions *)
  api_key : option string;        (* secret pydantic_ai_api_key *)
}.

(** *** Conversations *)

(** Modelled from the spec: the declaration of [ChatMessage] in
    [thonny.assistance] is not among the sources. A message is tagged with
    a role; its content may be missing ([msg.content or ""]). *)
Record ChatMessage := {
  role : string;
  content : option string;
}.

(** Modelled from the spec: the declaration of [ChatContext] in
    [thonny.assistance] is not among the sources. A conversation is an
    ordered sequence of messages, with optional supplementary context text
    ([getattr(context, "git_info", None)]). *)
Record ChatContext := {
  messages : list ChatMessage;
  git_info : option string;
}.

(** Modelled from the spec: the declaration of [ChatResponseChunk] in
    [thonny.assistance] is not among the sources. A chunk is a text
    fragment, final or not, optionally flagged as an internal error; the
    flag is spelled as the plugin passes it. *)
Record ChatResponseChunk := {
  text : string;
  is_final : bool;
  is_interal_error : bool;
}.

(** *** The inference engine and the agent library *)

(** A [Llama] object, by the arguments it was built with. *)
Record Llama := {
  model_path : string;
  chat_format : option string;
  n_ctx : Z;
}.

(** An entry of the message list given to the local model. *)
Record LlamaMessage := {
  m_role : string;
  m_content : string;
}.

(** An item of the stream of the local model:
    [{"choices": [{"delta": {"content": ...}}]}] with every level optional. *)
Record Delta := { d_content : option string }.
Record Choice := { delta : option Delta }.
Record LlamaChunk := { choices : option (list Choice) }.

(** A stream: the items it yields and the exception that ends it, if any. *)
Record Stream (A : Type) := {
  items : list A;
  failure : option exn;
}.
Arguments items {A} s.
Arguments failure {A} s.

(** A [pydantic_ai.Agent], by the arguments it was built with. *)
Record Agent := {
  agent_model : string;
  agent_base_url : option string;
  agent_api_key : option string;
  agent_instructions : string;
}.

(** An entry of the message history given to the agent. *)
Inductive HistoryItem :=
| ModelRequest (user_prompt : option string) (instr : string)
| ModelResponse (text_part : string).

(** The collaborators outside the repository: the assistant's
    [format_message], the translation function [tr], whether the two
    libraries can be imported, and what the model and the agent answer. *)
Record Host := {
  format_message : ChatMessage → string;
  tr : string → string;
  llama_cpp_import : option exn;
  Llama_init : Llama → option exn;
  create_chat_completion :
    Llama → list LlamaMessage → Z → Result (Stream LlamaChunk);
  pydantic_ai_import : option exn;
  run_stream_sync :
    Agent → string → option (list HistoryItem) → option Z → Result (Stream string);
}.

(** *** Auto-detection *)

Definition _is_probably_gguf (w : World) (path : string) : bool :=
  isfile w path && endswith (lower path) ".gguf".

(** [os.environ.get(name, "")]. *)
Definition getenv (E : Env) (name : string) : string :=
  default "" (environ E !! name).

Definition common_dirs (E : Env) : list string :=
  let thonny_models_dir := join (thonny_user_dir E) "models" in
  let home := home E in
  [ thonny_models_dir;
    join home "models";
    join home "Models";
    join (join home "Documents") "models";
    join (join home "Documents") "Models";
    join home "Downloads";
    join (join home ".cache") "llama.cpp";
    join (join (join home ".local") "share") "llama.cpp";
    join (join (join home "Library") "Application Support") "llama.cpp" ].

(** The body of the loop over the directories: the files of [d], directly
    in it, that look like models; nothing when [d] is not a directory or
    cannot be listed. *)
Definition scan_dir (w : World) (d : string) : list string :=
  if isdir w d then
    match listdir w d with
    | Ok names => filter (λ p, _is_probably_gguf w p = true) (map (join d) names)
    | Raise _ => []
    end
  else [].

(** [candidates.sort(key=..., reverse=True)]: a stable sort by decreasing
    key, on the list of pairs of a key and a path. *)
Fixpoint insert_desc (x : Z * string) (l : list (Z * string)) : list (Z * string) :=
  match l with
  | [] => [x]
  | y :: r => if fst y <=? fst x then x :: l else y :: insert_desc x r
  end.

Definition sort_desc (l : list (Z * string)) : list (Z * string) :=
  foldr insert_desc [] l.

(** The keys of the sort: [os.path.getmtime] of every candidate. *)
Fixpoint with_mtime (w : World) (l : list string) : Result (list (Z * string)) :=
  match l with
  | [] => Ok []
  | p :: r =>
      match getmtime w p with
      | Raise e => Raise e
      | Ok t =>
          match with_mtime w r with
          | Raise e => Raise e
          | Ok kr => Ok ((t, p) :: kr)
          end
      end
  end.

Definition _find_local_gguf_model (E : Env) (w : World) : Result (option string) :=
  let env_path :=
    strip (or_else (getenv E "THONNY_LLAMA_MODEL")
             (or_else (getenv E "LLAMA_MODEL_PATH")
                (getenv E "LLAMA_CPP_MODEL"))) in
  if truthy env_path && _is_probably_gguf w env_path then Ok (Some env_path)
  else
    let candidates := flat_map (scan_dir w) (common_dirs E) in
    if bool_decide (candidates = []) then Ok None
    else
      match with_mtime w candidates with
      | Raise e => Raise e
      | Ok keyed => Ok (snd <$> head (sort_desc keyed))
      end.

(** *** The loader *)

(** The module-level state [_llama_instance] and [_llama_load_error]; every
    read and write of it happens with the lock [_llama_loading] held. *)
Record Shared := {
  _llama_instance : option Llama;
  _llama_load_error : option string;
}.

Definition _get_llama_model (sh : Shared) : option Llama := _llama_instance sh.

(** The normalisation of the context-window option in
    [_preload_llama_model]. *)
Definition normalize_n_ctx (v : pyval) : Z :=
  match py_int v with
  | Some n => if n <? 512 then 512 else if 65536 <? n then 65536 else n
  | None => 4096
  end.

(** The start of [_preload_llama_model]: nothing to load when the path is
    empty or not a file, otherwise the [Llama] object to build. *)
Definition preload_args (cfg : Config) (w : World) : option Llama :=
  let path := strip (llama_model_path cfg) in
  if negb (truthy path) || negb (isfile w path) then None
  else
    let chat_format := strip (or_else (llama_chat_format cfg) "llama-2") in
    let n_ctx := normalize_n_ctx (llama_n_ctx cfg) in
    Some {| model_path := path;
            chat_format := if truthy chat_format then Some chat_format else None;
            n_ctx := n_ctx |}.

(** Where a thread running [_preload_llama_model] stands: created; inside
    [Llama(...)]; back from it with its outcome, before it takes the lock;
    finished, with or without a last write of the shared state. *)
Inductive thread :=
| TCreated
| TLoading (job : Llama)
| TLoaded (job : Llama) (outcome : option exn)
| TFinished (wrote : bool).

(** One step of a thread. Each step holds the lock for at most one write of
    the two shared fields together. *)
Definition thread_step (H : Host) (cfg : Config) (w : World)
    (sh : Shared) (t : thread) : Shared * thread :=
  match t with
  | TCreated =>
      match preload_args cfg w with
      | None => (sh, TFinished false)
      | Some job =>
          match llama_cpp_import H with
          | Some e =>
              ({| _llama_instance := None; _llama_load_error := Some (exn_text e) |},
               TFinished true)
          | None =>
              ({| _llama_instance := _llama_instance sh; _llama_load_error := None |},
               TLoading job)
          end
      end
  | TLoading job => (sh, TLoaded job (Llama_init H job))
  | TLoaded job None =>
      ({| _llama_instance := Some job; _llama_load_error := None |}, TFinished true)
  | TLoaded job (Some e) =>
      ({| _llama_instance := None; _llama_load_error := Some (exn_text e) |},
       TFinished true)
  | TFinished wrote => (sh, TFinished wrote)
  end.

(** The process: the shared state and the threads started so far. *)
Record Proc := {
  shared : Shared;
  threads : list thread;
}.

(** What can happen next: [_start_llama_preload()] is called, or the
    scheduler lets thread [i] take its next step. *)
Inductive action :=
| StartPreload
| Run (i : nat).

(** [_start_llama_preload()]: a new thread, whatever the others do. *)
Definition _start_llama_preload (p : Proc) : Proc :=
  {| shared := shared p; threads := threads p ++ [TCreated] |}.

Definition act (H : Host) (cfg : Config) (w : World) (p : Proc) (a : action) : Proc :=
  match a with
  | StartPreload => _start_llama_preload p
  | Run i =>
      match threads p !! i with
      | Some t =>
          let '(sh, t') := thread_step H cfg w (shared p) t in
          {| shared := sh; threads := <[i := t']> (threads p) |}
      | None => p
      end
  end.

Definition run (H : Host) (cfg : Config) (w : World) (p : Proc)
    (schedule : list action) : Proc :=
  fold_left (act H cfg w) schedule p.

Definition startup : Proc :=
  {| shared := {| _llama_instance := None; _llama_load_error := None |};
     threads := [] |}.

(** The loads in flight: the threads inside [Llama(...)] or back from it and
    not yet published. *)
Definition in_flight_thread (t : thread) : bool :=
  match t with TLoading _ | TLoaded _ _ => true | _ => false end.

Definition in_flight (p : Proc) : nat :=
  length (filter (λ t, in_flight_thread t = true) (threads p)).

(** The terminal transitions made so far: the threads that finished with a
    write of the shared state. *)
Definition wrote_thread (t : thread) : bool :=
  match t with TFinished true => true | _ => false end.

Definition terminal_writes (p : Proc) : nat :=
  length (filter (λ t, wrote_thread t = true) (threads p)).

(** The number of calls of [_start_llama_preload] in a schedule. *)
Definition is_start (a : action) : bool :=
  match a with StartPreload => true | Run _ => false end.

Definition starts (schedule : list action) : nat :=
  length (filter (λ a, is_start a = true) schedule).

(** *** The chat bridge *)

Definition _get_max_tokens (cfg : Config) : Z :=
  let v := max_tokens cfg in
  if val_truthy v then default 0 (py_int v) else 0.

Definition newline : string := String "010"%char EmptyString.

Definition _get_system_instructions (cfg : Config) : string :=
  let instructions := instructions cfg in
  let thinking := strip (thinking cfg) in
  if truthy thinking
  then strip (instructions +:+ newline +:+ newline +:+ thinking)
  else instructions.

(** The text put before the last user message when there is git
    information: [f"Current git context:\n{git_info}\n\n---\n\n{content}"]. *)
Definition with_git_context (git_info content : string) : string :=
  "Current git context:" +:+ newline +:+ git_info +:+ newline +:+ newline
    +:+ "---" +:+ newline +:+ newline +:+ content.

(** The entry built for one message of the conversation. *)
Definition llama_entry (H : Host) (msg : ChatMessage) : LlamaMessage :=
  {| m_role :=
       if bool_decide (role msg = "user") || bool_decide (role msg = "assistant")
          || bool_decide (role msg = "system")
       then role msg else "user";
     m_content :=
       if bool_decide (role msg = "user") then format_message H msg
       else default "" (content msg) |}.

(** [messages[-1]["content"] = f messages[-1]["content"]]. *)
Fixpoint update_last_content (f : string → string) (l : list LlamaMessage)
  : list LlamaMessage :=
  match l with
  | [] => []
  | [m] => [{| m_role := m_role m; m_content := f (m_content m) |}]
  | m :: r => m :: update_last_content f r
  end.

Definition _messages_to_llama_chat (H : Host) (cfg : Config) (context : ChatContext)
  : list LlamaMessage :=
  let instructions := _get_system_instructions cfg in
  let out :=
    if truthy instructions
    then [{| m_role := "system"; m_content := instructions |}] else [] in
  let out :=
    fold_left (λ acc msg, acc ++ [llama_entry H msg]) (messages context) out in
  match git_info context, last out with
  | Some g, Some m =>
      if truthy g && bool_decide (m_role m = "user")
      then update_last_content (with_git_context g) out
      else out
  | _, _ => out
  end.

(** A generator run to its end: the chunks it yielded and the exception
    that left it, if any. *)
Definition Yielded : Type := list ChatResponseChunk * option exn.

Definition partial_chunk (s : string) : ChatResponseChunk :=
  {| text := s; is_final := false; is_interal_error := false |}.

Definition final_chunk : ChatResponseChunk :=
  {| text := ""; is_final := true; is_interal_error := false |}.

Definition error_chunk (s : string) : ChatResponseChunk :=
  {| text := s; is_final := true; is_interal_error := true |}.

(** [((chunk.get("choices") or [{}])[0].get("delta") or {}).get("content") or ""]. *)
Definition chunk_content (c : LlamaChunk) : string :=
  match choices c with
  | Some (ch :: _) =>
      match delta ch with
      | Some d => default "" (d_content d)
      | None => ""
      end
  | _ => ""
  end.

(** The chunks yielded for the items of a stream of text: one for each
    text that is not empty. *)
Definition partial_chunks (texts : list string) : list ChatResponseChunk :=
  partial_chunk <$> filter (λ s, truthy s = true) texts.

(** The [try] block of the local path. *)
Definition local_completion (H : Host) (cfg : Config) (llm : Llama)
    (context : ChatContext) : Yielded :=
  let msgs := _messages_to_llama_chat H cfg context in
  let limit := _get_max_tokens cfg in
  match create_chat_completion H llm msgs
          (if negb (limit =? 0) then limit else 2048) with
  | Raise e =>
      ([error_chunk ("Error: " +:+ exn_text e +:+ ". See frontend.log for details.")],
       None)
  | Ok stream =>
      (partial_chunks (chunk_content <$> items stream) ++
       match failure stream with
       | None => [final_chunk]
       | Some e =>
           [error_chunk ("Error: " +:+ exn_text e +:+ ". See frontend.log for details.")]
       end,
       None)
  end.

Definition default_instructions : string :=
  "You are a helpful programming coach. Be concise and clear.".

Definition _get_agent (H : Host) (cfg : Config) : Result Agent :=
  match pydantic_ai_import H with
  | Some _ =>
      Raise (Exn "RuntimeError"
               "pydantic-ai is not installed. Install with: pip install pydantic-ai openai")
  | None =>
      let model_or_name := model cfg in
      let base_url := strip (base_url cfg) in
      let instructions := or_else (_get_system_instructions cfg) default_instructions in
      if truthy base_url then
        Ok {| agent_model := or_else model_or_name "local";
              agent_base_url := Some base_url;
              agent_api_key :=
                Some (match api_key cfg with
                      | Some k => or_else k "not-needed"
                      | None => "not-needed"
                      end);
              agent_instructions := instructions |}
      else
        Ok {| agent_model := model_or_name;
              agent_base_url := None;
              agent_api_key := None;
              agent_instructions := instructions |}
  end.

Definition _build_message_history (H : Host) (msgs : list ChatMessage)
    (instructions : string) : option (list HistoryItem) :=
  match pydantic_ai_import H with
  | Some _ => None
  | None =>
      let out :=
        flat_map
          (λ msg,
             if bool_decide (role msg = "user")
             then [ModelRequest (content msg) instructions]
             else if bool_decide (role msg = "assistant")
                     && truthy (default "" (content msg))
             then [ModelResponse (default "" (content msg))]
             else [])
          msgs in
      match out with [] => None | _ => Some out end
  end.

(** The path through the agent library. *)
Definition remote_completion (H : Host) (cfg : Config) (context : ChatContext)
  : Yielded :=
  match _get_agent H cfg with
  | Raise e =>
      ([error_chunk ("Setup error: " +:+ exn_text e
                       +:+ ". Install with: pip install pydantic-ai openai")],
       None)
  | Ok agent =>
      match last (messages context) with
      | None => ([], Some (Exn "IndexError" "list index out of range"))
      | Some last_msg =>
          let user_content := format_message H last_msg in
          let user_content :=
            match git_info context with
            | Some g => if truthy g then with_git_context g user_content else user_content
            | None => user_content
            end in
          let message_history :=
            if (1 <? length (messages context))%nat
            then _build_message_history H (removelast (messages context))
                   (_get_system_instructions cfg)
            else None in
          let limit := _get_max_tokens cfg in
          let model_settings := if 0 <? limit then Some limit else None in
          match run_stream_sync H agent user_content message_history model_settings with
          | Raise e =>
              ([error_chunk ("Error: " +:+ exn_text e
                               +:+ ". Check your model and API key or base URL.")],
               None)
          | Ok stream =>
              (partial_chunks (items stream) ++
               match failure stream with
               | None => [final_chunk]
               | Some e =>
                   [error_chunk ("Error: " +:+ exn_text e
                                   +:+ ". Check your model and API key or base URL.")]
               end,
               None)
          end
      end
  end.

(** [PydanticAIAssistant.complete_chat], run to its end. *)
Definition complete_chat (H : Host) (cfg : Config) (w : World) (sh : Shared)
    (context : ChatContext) : Yielded :=
  match messages context with
  | [] => ([final_chunk], None)
  | _ :: _ =>
    let llama_path := strip (llama_model_path cfg) in
    if bool_decide (backend cfg = "local") && truthy llama_path && isfile w llama_path
    then
      match _get_llama_model sh with
      | Some llm => local_completion H cfg llm context
      | None =>
          if truthy (default "" (_llama_load_error sh)) then
            ([error_chunk ("Model failed to load: "
                             +:+ default "" (_llama_load_error sh))], None)
          else
            ([error_chunk (tr H "Model is still loading. Try again in a moment.")],
             None)
      end
    else remote_completion H cfg context
  end.

(** *** Configuration at startup *)

(** [wb.set_option(LLAMA_MODEL_PATH_OPTION, path)]. *)
Definition set_llama_model_path (path : string) (cfg : Config) : Config :=
  {| backend := backend cfg; model := model cfg; base_url := base_url cfg;
     llama_model_path := path; llama_chat_format := llama_chat_format cfg;
     llama_n_ctx := llama_n_ctx cfg; max_tokens := max_tokens cfg;
     thinking := thinking cfg; instructions := instructions cfg;
     api_key := api_key cfg |}.

(** [wb.set_option(BACKEND_OPTION, b)]. *)
Definition set_backend (b : string) (cfg : Config) : Config :=
  {| backend := b; model := model cfg; base_url := base_url cfg;
     llama_model_path := llama_model_path cfg;
     llama_chat_format := llama_chat_format cfg;
     llama_n_ctx := llama_n_ctx cfg; max_tokens := max_tokens cfg;
     thinking := thinking cfg; instructions := instructions cfg;
     api_key := api_key cfg |}.

(** [not api_key] on the stored secret. *)
Definition no_api_key (cfg : Config) : bool :=
  negb (truthy (default "" (api_key cfg))).

Definition _ensure_local_model_configured (E : Env) (w : World) (cfg : Config)
  : Result Config :=
  let backend0 := backend cfg in
  let base := strip (base_url cfg) in
  let existing := strip (llama_model_path cfg) in
  if truthy base then Ok cfg
  else
    let '(cfg, existing) :=
      if truthy existing && negb (isfile w existing)
      then (set_llama_model_path "" cfg, "")
      else (cfg, existing) in
    if truthy existing then Ok cfg
    else
      let should_try :=
        bool_decide (backend0 = "local")
        || (bool_decide (backend0 = "api") && no_api_key cfg) in
      if negb should_try then Ok cfg
      else
        match _find_local_gguf_model E w with
        | Raise e => Raise e
        | Ok found =>
            if truthy (default "" found) then
              let cfg := set_llama_model_path (default "" found) cfg in
              if negb (bool_decide (backend0 = "local")) && no_api_key cfg
              then Ok (set_backend "local" cfg)
              else Ok cfg
            else Ok cfg
        end.

(** [_single_gguf_in_models_dir]. *)
Definition _single_gguf_in_models_dir (E : Env) (w : World)
  : Result (option string) :=
  let models_dir := LlamaDownload.get_models_dir E in
  if negb (isdir w models_dir) then Ok None
  else
    match listdir w models_dir with
    | Raise e => Raise e
    | Ok names =>
        match filter (λ f, endswith (lower f) ".gguf" = true) names with
        | [f] => Ok (Some (join models_dir f))
        | _ => Ok None
        end
    end.

(** *** Getting ready *)

(** [wb.set_secret(API_KEY_SECRET_KEY, key)]. *)
Definition set_api_key (key : string) (cfg : Config) : Config :=
  {| backend := backend cfg; model := model cfg; base_url := base_url cfg;
     llama_model_path := llama_model_path cfg;
     llama_chat_format := llama_chat_format cfg;
     llama_n_ctx := llama_n_ctx cfg; max_tokens := max_tokens cfg;
     thinking := thinking cfg; instructions := instructions cfg;
     api_key := Some key |}.

(** [PydanticAIConfigDialog.on_click_ok_button] with the text of the key
    entry. *)
Definition on_click_ok_button (entry : string) (cfg : Config) : Config :=
  let key := strip entry in
  if truthy key then set_api_key key cfg else cfg.

(** [show_dialog(PydanticAIConfigDialog(...))]: the user closes the dialog,
    or presses OK with some text in the entry. *)
Definition show_config_dialog (answer : option string) (cfg : Config) : Config :=
  match answer with
  | Some entry => on_click_ok_button entry cfg
  | None => cfg
  end.

(** What [get_ready] puts on the screen. *)
Inductive shown :=
| KeyDialog
| ErrorBox (title message : string)
| InfoBox (title message : string).

(** The end of [get_ready]: the agent is built once, to see that it can
    be. *)
Definition check_agent (H : Host) (cfg : Config) (seen : list shown)
  : bool * Config * list shown :=
  match _get_agent H cfg with
  | Raise e => (false, cfg, seen ++ [ErrorBox (tr H "Pydantic AI") (exn_text e)])
  | Ok _ => (true, cfg, seen)
  end.

(** [PydanticAIAssistant.get_ready]: its result, the options as it leaves
    them, and what it showed. [answer] is what the user does with the key
    dialog, if it comes up. *)
Definition get_ready (H : Host) (answer : option string) (cfg : Config)
    (sh : Shared) : bool * Config * list shown :=
  if bool_decide (backend cfg = "api") then
    if negb (truthy (default "" (api_key cfg)))
       && negb (truthy (strip (base_url cfg)))
    then
      let cfg := show_config_dialog answer cfg in
      if negb (truthy (default "" (api_key cfg))) then (false, cfg, [KeyDialog])
      else check_agent H cfg [KeyDialog]
    else check_agent H cfg []
  else if bool_decide (backend cfg = "local") then
    let path := strip (llama_model_path cfg) in
    if truthy path then
      match _get_llama_model sh with
      | None =>
          if truthy (default "" (_llama_load_error sh)) then
            (false, cfg,
             [ErrorBox (tr H "llama-cpp-python model failed to load")
                (default "" (_llama_load_error sh))])
          else
            (false, cfg,
             [InfoBox (tr H "Model loading")
                (tr H "Local model is still loading. Try again in a moment.")])
      | Some _ => (true, cfg, [])
      end
    else if negb (truthy (strip (base_url cfg))) then
      (false, cfg,
       [ErrorBox (tr H "Local backend")
          (tr H "Set a model path (llama-cpp-python) or Base URL in Tools → Options → Pydantic AI.")])
    else check_agent H cfg []
  else check_agent H cfg [].

(** *** Startup *)

(** The handler [load_plugin] binds to [WorkbenchReady]. *)
Definition _on_workbench_ready (E : Env) (w : World) (cfg : Config) (p : Proc)
  : Result (Config * Proc) :=
  match _ensure_local_model_configured E w cfg with
  | Raise e => Raise e
  | Ok cfg => Ok (cfg, _start_llama_preload p)
  end.

(** The options [load_plugin] declares as defaults, with no secret
    stored. *)
Definition default_config : Config :=
  {| backend := "api"; model := "openai:gpt-4o-mini"; base_url := "";
     llama_model_path := ""; llama_chat_format := "llama-2";
     llama_n_ctx := VInt 4096; max_tokens := VInt 0;
     thinking := "";
     instructions := "You are a helpful programming coach. Be concise and clear.";
     api_key := None |}.

End Assistant.

(** ** The vocabulary of the properties *)

Module Notions.
Import PyStr OsPath Py Os LlamaDownload Assistant.

(** Ending with the component [models]. *)
Definition ends_models (s : string) : Prop :=
  s = "models" ∨ ∃ a, s = a +:+ "/models".

(** The destination [download_model] resolves. *)
Definition dest_of (E : Env) (hf_file : string) (output_filename : option string)
  : string :=
  let filename := or_else (default "" output_filename) hf_file in
  join (get_models_dir E)
    (if negb (endswith (lower filename) ".gguf") then filename +:+ ".gguf"
     else filename).

(** The chunks the loop consumes: those before the first empty one. *)
Fixpoint consumed (chunks : list (list Byte.byte)) : list (list Byte.byte) :=
  match chunks with
  | [] => []
  | c :: r => if bool_decide (c = []) then [] else c :: consumed r
  end.





(** The path the environment names, after [strip]. *)
Definition env_path (E : Env) : string :=
  strip (or_else (getenv E "THONNY_LLAMA_MODEL")
           (or_else (getenv E "LLAMA_MODEL_PATH") (getenv E "LLAMA_CPP_MODEL"))).

(** The matches of the scan, in the order of the directories. *)
Definition candidates (E : Env) (w : World) : list string :=
  flat_map (scan_dir w) (common_dirs E).

(** The modification time of a file. *)
Definition mtime_of (w : World) (p : string) : option Z :=
  match fs w !! p with Some (File t _) => Some t | _ => None end.

(** The message list before the git context is put in: the system entry
    when there are instructions, then one entry per message. *)
Definition base_messages (H : Host) (cfg : Config) (context : ChatContext)
  : list LlamaMessage :=
  (if truthy (_get_system_instructions cfg)
   then [{| m_role := "system"; m_content := _get_system_instructions cfg |}]
   else [])
  ++ (llama_entry H <$> messages context).

(** The role of an entry: the role of the message when it is one of the
    three known roles, ["user"] otherwise. *)
Definition coerced_role (r : string) : string :=
  if bool_decide (r = "user") || bool_decide (r = "assistant")
     || bool_decide (r = "system")
  then r else "user".

(** The chunk the local path yields for an exception. *)
Definition local_error_chunk (e : exn) : ChatResponseChunk :=
  {| text := "Error: " +:+ exn_text e +:+ ". See frontend.log for details.";
     is_final := true;
     is_interal_error := true |}.

(** The two shared fields never hold a model and an error at once. *)
Definition consistent (sh : Shared) : Prop :=
  _llama_instance sh = None ∨ _llama_load_error sh = None.

(** A name without separator, as a directory listing gives them. *)
Definition plain (s : string) : bool :=
  forallb (λ c, negb (is_slash c)) (list_ascii_of_string s).

(** What [abspath] normalises, before it does. *)
Definition anchored (cwd p : string) : string :=
  if isabs p then p else join cwd p.

(** A host whose local model refuses a completion bounded by zero tokens
    and whose agent refuses a token setting that is not positive; in all
    else it is [H]. *)
Definition strict_host (H : Host) : Host :=
  {| format_message := format_message H;
     tr := tr H;
     llama_cpp_import := llama_cpp_import H;
     Llama_init := Llama_init H;
     create_chat_completion := λ llm msgs limit,
       if limit =? 0 then Raise (Exn "ValueError" "max_tokens")
       else create_chat_completion H llm msgs limit;
     pydantic_ai_import := pydantic_ai_import H;
     run_stream_sync := λ agent prompt history settings,
       match settings with
       | Some n =>
           if n <=? 0 then Raise (Exn "ValueError" "max_tokens")
           else run_stream_sync H agent prompt history settings
       | None => run_stream_sync H agent prompt history settings
       end |}.

(** The history items that are requests, and those that are responses. *)
Definition is_request (h : HistoryItem) : bool :=
  match h with ModelRequest _ _ => true | ModelResponse _ => false end.

Definition is_response (h : HistoryItem) : bool :=
  match h with ModelRequest _ _ => false | ModelResponse _ => true end.

(** The messages of a user, and the messages of the assistant that have
    text. *)
Definition from_user (msg : ChatMessage) : bool :=
  bool_decide (role msg = "user").

Definition answered (msg : ChatMessage) : bool :=
  negb (bool_decide (role msg = "user"))
  && bool_decide (role msg = "assistant")
  && truthy (default "" (content msg)).

(** The models directory the script's [main] works on. *)
Definition main_models_dir (S : Script.Sys) (E : Env) (args : Script.Args)
  : string :=
  or_else (default "" (Script.arg_models_dir args)) (Script.get_models_dir S E).

(** The arguments name no source: no URL, and not both a repository and a
    file. *)
Definition no_source (args : Script.Args) : bool :=
  negb (truthy (default "" (Script.arg_url args)))
  && negb (truthy (default "" (Script.arg_hf_repo args))
           && truthy (default "" (Script.arg_hf_file args))).

(** The lines the script's [main] prints for the names of a listing. *)
Definition listing (S : Script.Sys) (models_dir : string) (w : World)
    (names : list string) : list out_line :=
  match names with
  | [] => [Line ("No .gguf files in " +:+ models_dir)]
  | _ =>
      Line ("Models in " +:+ models_dir +:+ ":")
        :: (Script.list_line S models_dir w <$> names)
  end.

(** The last line of a successful download by the script's [main]. *)
Definition set_path_line (dest_path : string) : out_line :=
  Line ("Set 'llama-cpp-python model path' in Contour to:"
          +:+ String "010"%char ("  " +:+ dest_path)).


End Notions.

(** ** Concrete inputs *)

Module Fixtures.
Import PyStr OsPath Py Os LlamaDownload Assistant.

(** A machine without network and without model variables in its
    environment. *)
Definition offline_env : Env :=
  {| cwd := "/home/u"; environ := ∅; home := "/home/u";
     thonny_user_dir := "/home/u/.config/Thonny";
     urlopen := λ _, Raise (Exn "URLError" "unreachable") |}.

(** A model in the managed directory, a file with another extension beside
    it, and a model file one level above. *)
Definition store_world : World :=
  {| fs := {[ "/home/u/.config/Thonny/models/a.gguf" := File 10 [];
              "/home/u/.config/Thonny/secret.gguf" := File 20 [];
              "/home/u/.config/Thonny/models/notes.txt" := File 30 [] ]};
     clock := 100; requests := []; progress := []; stdout := [] |}.

(** A server that announces three bytes and sends them in two chunks. *)
Definition serving_env : Env :=
  {| cwd := "/home/u"; environ := ∅; home := "/home/u";
     thonny_user_dir := "/home/u/.config/Thonny";
     urlopen := λ _, Ok {| content_length := Some "3";
                          reads := [[Byte.x61; Byte.x62]; [Byte.x63]] |} |}.

(** One model already in the managed directory. *)
Definition one_model_world : World :=
  {| fs := {[ "/home/u/.config/Thonny/models/a.gguf" := File 10 [] ]};
     clock := 100; requests := []; progress := []; stdout := [] |}.



(** Two models in two directories, a directory that cannot be read, a model
    one level too deep, and an older model outside the directories. *)
Definition detect_world : World :=
  {| fs := {[ "/home/u/.config/Thonny/models" := Dir (Some ["a.gguf"; "sub"; "readme.txt"]);
              "/home/u/.config/Thonny/models/a.gguf" := File 10 [];
              "/home/u/.config/Thonny/models/readme.txt" := File 99 [];
              "/home/u/.config/Thonny/models/sub" := Dir (Some ["deep.gguf"]);
              "/home/u/.config/Thonny/models/sub/deep.gguf" := File 50 [];
              "/home/u/models" := Dir None;
              "/home/u/Downloads" := Dir (Some ["B.GGUF"]);
              "/home/u/Downloads/B.GGUF" := File 20 [];
              "/opt/old.gguf" := File 1 [] ]};
     clock := 100; requests := []; progress := []; stdout := [] |}.

(** The same machine with [THONNY_LLAMA_MODEL] set. *)
Definition override_env : Env :=
  {| cwd := "/home/u"; environ := {[ "THONNY_LLAMA_MODEL" := "/opt/old.gguf" ]};
     home := "/home/u";
     thonny_user_dir := "/home/u/.config/Thonny";
     urlopen := λ _, Raise (Exn "URLError" "unreachable") |}.

(** A host whose [format_message] is the content of the message, and whose
    local model streams two texts around an empty delta and then fails. *)
Definition plain_host : Host :=
  {| format_message := λ msg, default "" (content msg);
     tr := λ s, s;
     llama_cpp_import := None;
     Llama_init := λ _, None;
     create_chat_completion := λ _ _ _,
       Ok {| items := [ {| choices := Some [{| delta := Some {| d_content := Some "Hel" |} |}] |};
                        {| choices := Some [{| delta := Some {| d_content := None |} |}] |};
                        {| choices := Some [{| delta := Some {| d_content := Some "lo" |} |}] |} ];
             failure := Some (Exn "RuntimeError" "context overflow") |};
     pydantic_ai_import := None;
     run_stream_sync := λ _ _ _ _, Ok {| items := ["Hi"]; failure := None |} |}.

Definition local_cfg : Config :=
  {| backend := "local"; model := "openai:gpt-4o-mini"; base_url := "";
     llama_model_path := "/m/a.gguf"; llama_chat_format := "llama-2";
     llama_n_ctx := VInt 4096; max_tokens := VInt 0;
     thinking := ""; instructions := "Be brief."; api_key := None |}.

(** Scenario 4: one user message and the context text [Branch: main]. *)
Definition scenario4 : ChatContext :=
  {| messages := [{| role := "user"; content := Some "What changed?" |}];
     git_info := Some "Branch: main" |}.

(** The loader's state once the model of [local_cfg] is ready. *)
Definition loaded : Shared :=
  {| _llama_instance :=
       Some {| model_path := "/m/a.gguf"; chat_format := Some "llama-2"; n_ctx := 4096 |};
     _llama_load_error := None |}.

Definition model_world : World :=
  {| fs := {[ "/m/a.gguf" := File 10 [] ]};
     clock := 100; requests := []; progress := []; stdout := [] |}.

(** The host of [plain_host] without the agent library. *)
Definition no_agent_host : Host :=
  {| format_message := format_message plain_host;
     tr := tr plain_host;
     llama_cpp_import := None;
     Llama_init := λ _, None;
     create_chat_completion := create_chat_completion plain_host;
     pydantic_ai_import := Some (Exn "ImportError" "No module named pydantic_ai");
     run_stream_sync := λ _ _ _ _, Raise (Exn "RuntimeError" "no agent") |}.

(** A conversation of three turns, with a system message in front. *)
Definition three_turns : list ChatMessage :=
  [ {| role := "system"; content := Some "Be kind." |};
    {| role := "user"; content := Some "Hi" |};
    {| role := "assistant"; content := Some "Hello" |};
    {| role := "assistant"; content := None |};
    {| role := "user"; content := None |} ].

(** The options of a fresh installation: the API backend, no key, no
    model path. *)
Definition fresh_cfg : Config :=
  {| backend := "api"; model := "openai:gpt-4o-mini"; base_url := "";
     llama_model_path := ""; llama_chat_format := "llama-2";
     llama_n_ctx := VInt 4096; max_tokens := VInt 0;
     thinking := ""; instructions := "Be brief."; api_key := None |}.

(** The same options once the model of [detect_world] was found. *)
Definition detected_cfg : Config :=
  {| backend := "local"; model := "openai:gpt-4o-mini"; base_url := "";
     llama_model_path := "/home/u/Downloads/B.GGUF";
     llama_chat_format := "llama-2";
     llama_n_ctx := VInt 4096; max_tokens := VInt 0;
     thinking := ""; instructions := "Be brief."; api_key := None |}.

(** A Linux machine whose home directory is [/home/u]. *)
Definition posix_sys : Script.Sys :=
  {| Script.sys_platform := Script.OtherPosix;
     Script.expanduser := λ p,
       match p with
       | String "~" r => "/home/u" +:+ r
       | _ => p
       end;
     Script.usage := "usage: download_llama_model.py [-h] [--url URL]";
     Script.format_mib := λ _, "0.0" |}.

(** The script called without arguments, with [--list], and with a URL
    that carries a query, under [--force]. *)
Definition no_args : Script.Args :=
  {| Script.arg_url := None; Script.arg_hf_repo := None;
     Script.arg_hf_file := None; Script.arg_hf_revision := "main";
     Script.arg_output := None; Script.arg_force := false;
     Script.arg_list := false; Script.arg_models_dir := None |}.

Definition list_args : Script.Args :=
  {| Script.arg_url := Some "https://h/ignored.gguf"; Script.arg_hf_repo := None;
     Script.arg_hf_file := None; Script.arg_hf_revision := "main";
     Script.arg_output := None; Script.arg_force := true;
     Script.arg_list := true; Script.arg_models_dir := None |}.

Definition url_args : Script.Args :=
  {| Script.arg_url := Some "https://h/dir/b.gguf?download=true";
     Script.arg_hf_repo := None;
     Script.arg_hf_file := None; Script.arg_hf_revision := "main";
     Script.arg_output := None; Script.arg_force := true;
     Script.arg_list := false; Script.arg_models_dir := None |}.

(** The loader's state before any load. *)
Definition startup_shared : Shared :=
  {| _llama_instance := None; _llama_load_error := None |}.

End Fixtures.

(** * Properties *)

(** ** Strings and paths *)

Module PathFacts.
Import PyStr OsPath Notions Fixtures.

Lemma app_cons (c : ascii) (a b : string) : String c a +:+ b = String c (a +:+ b).
Proof. reflexivity. Qed.

Lemma app_nil (b : string) : "" +:+ b = b.
Proof. reflexivity. Qed.

Lemma app_empty_r (s : string) : s +:+ "" = s.
Proof. induction s as [|c s IH]; [done|]. by rewrite app_cons, IH. Qed.

Lemma app_assoc (a b c : string) : (a +:+ b) +:+ c = a +:+ b +:+ c.
Proof. induction a as [|x a IH]; [done|]. by rewrite !app_cons, IH. Qed.

Lemma rev_app_spec (a acc : string) : String.rev_app a acc = String.rev a +:+ acc.
Proof.
  unfold String.rev. revert acc.
  induction a as [|x a IH]; intros acc; [done|].
  cbn [String.rev_app]. rewrite IH, (IH (String x "")), app_assoc. done.
Qed.

Lemma rev_cons (x : ascii) (a : string) :
  String.rev (String x a) = String.rev a +:+ String x "".
Proof. unfold String.rev at 1. cbn [String.rev_app]. apply rev_app_spec. Qed.

Lemma rev_app_distr (a b : string) : String.rev (a +:+ b) = String.rev b +:+ String.rev a.
Proof.
  induction a as [|x a IH].
  - by rewrite app_nil, app_empty_r.
  - by rewrite app_cons, !rev_cons, IH, app_assoc.
Qed.

Lemma lower_app (a b : string) : lower (a +:+ b) = lower a +:+ lower b.
Proof.
  induction a as [|x a IH]; [done|].
  rewrite app_cons. cbn [lower]. by rewrite app_cons, IH.
Qed.

Lemma startswith_inv (s p : string) :
  startswith s p = true → ∃ r, s = p +:+ r.
Proof.
  revert s. induction p as [|a p IH]; intros s; [by exists s|].
  destruct s as [|b s]; cbn [startswith]; [done|].
  destruct (Ascii.eqb_spec a b) as [->|]; [|done]. cbn [andb].
  intros [r ->]%IH. by exists r.
Qed.

Lemma ends_slash_not_gguf (d : string) :
  endswith (lower (d +:+ "/")) ".gguf" = false.
Proof. unfold endswith. by rewrite lower_app, rev_app_distr. Qed.

(** A string that ends with a slash is some text followed by the slash. *)
Lemma startswith_cons_inv (s : string) (c : ascii) :
  startswith s (String c "") = true → ∃ r, s = String c r.
Proof.
  destruct s as [|b s]; cbn; [done|].
  destruct (Ascii.eqb_spec c b) as [->|]; [eauto | done].
Qed.

Lemma rev_involutive (s : string) : String.rev (String.rev s) = s.
Proof.
  induction s as [|c s IH]; [done|].
  by rewrite rev_cons, rev_app_distr, IH.
Qed.

Lemma endswith_slash_inv (a : string) :
  endswith a "/" = true → ∃ a', a = a' +:+ "/".
Proof.
  unfold endswith. intros [r Hr]%startswith_cons_inv.
  exists (String.rev r).
  rewrite <- (rev_involutive a), Hr, rev_cons. done.
Qed.

Lemma split_slash_app (a b : string) :
  ∃ l, l ≠ [] ∧ split_slash (a +:+ "/" +:+ b) = l ++ split_slash b.
Proof.
  induction a as [|c a (l & Hl & IH)].
  - exists [""]. done.
  - rewrite app_cons. cbn [split_slash]. rewrite IH.
    destruct (is_slash c).
    + exists ("" :: l). done.
    + destruct l as [|h t]; [done|]. exists (String c h :: t). done.
Qed.

Lemma ends_models_split (s : string) :
  ends_models s → ∃ l, split_slash s = l ++ ["models"].
Proof.
  intros [->|[a ->]].
  - exists []. done.
  - destruct (split_slash_app a "models") as (l & _ & Hl).
    exists l. change (a +:+ "/models") with (a +:+ "/" +:+ "models").
    rewrite Hl. done.
Qed.

Lemma join_ends_models (u : string) : ends_models (join u "models").
Proof.
  unfold join. cbn [startswith Ascii.eqb Bool.eqb andb].
  destruct u as [|c u]; [by left|]. cbn [truthy negb orb].
  destruct (endswith (String c u) "/") eqn:He.
  - apply endswith_slash_inv in He as [a' ->]. right. exists a'.
    by rewrite app_assoc.
  - right. by exists (String c u).
Qed.

Lemma ends_models_not_abs_join (cwd s : string) :
  ends_models s → ends_models (if isabs s then s else join cwd s).
Proof.
  intros Hs. destruct (isabs s) eqn:Habs; [done|].
  unfold join. unfold isabs in Habs. rewrite Habs.
  assert (∀ a, ends_models (a +:+ "/" +:+ s)) as Hsl.
  { intros a. destruct Hs as [->|[b ->]]; right.
    - by exists a.
    - exists (a +:+ "/" +:+ b). by rewrite !app_assoc. }
  destruct cwd as [|c cwd]; [done|]. cbn [truthy negb orb].
  destruct (endswith (String c cwd) "/") eqn:He.
  - apply endswith_slash_inv in He as [a' ->]. rewrite app_assoc. apply Hsl.
  - apply Hsl.
Qed.

Lemma join_slash_snoc (l : list string) (x : string) :
  join_slash (l ++ [x]) =
    match l with [] => x | _ => join_slash l +:+ "/" +:+ x end.
Proof.
  induction l as [|y l IH]; [done|].
  destruct l as [|z l]; [done|].
  change (join_slash ((y :: z :: l) ++ [x]))
    with (y +:+ "/" +:+ join_slash ((z :: l) ++ [x])).
  rewrite IH.
  change (join_slash (y :: z :: l)) with (y +:+ "/" +:+ join_slash (z :: l)).
  by rewrite !app_assoc.
Qed.

Lemma slashes_snoc (n : nat) : slashes (S n) = slashes n +:+ "/".
Proof. induction n as [|n IH]; [done|]. cbn [slashes] in *. by rewrite app_cons, <- IH. Qed.

Lemma ends_models_truthy (s : string) : ends_models s → truthy s = true.
Proof.
  intros [->|[a ->]]; [done|]. destruct a; done.
Qed.

Lemma normpath_ends_models (p : string) :
  ends_models p → ends_models (normpath p).
Proof.
  intros Hp. unfold normpath.
  rewrite (ends_models_truthy p Hp). cbn [negb].
  destruct (ends_models_split p Hp) as [l ->].
  rewrite fold_left_app. cbn [fold_left].
  set (acc := fold_left _ l []). set (n := initial_slashes p).
  assert (norm_step n acc "models" = acc ++ ["models"]) as -> by done.
  rewrite join_slash_snoc.
  assert (ends_models (slashes n +:+
            match acc with [] => "models" | _ => join_slash acc +:+ "/" +:+ "models" end))
    as Hq.
  { destruct acc as [|y acc].
    - destruct n as [|n]; [by left|]. right. exists (slashes n).
      by rewrite slashes_snoc, app_assoc.
    - right. exists (slashes n +:+ join_slash (y :: acc)). by rewrite app_assoc. }
  unfold or_else. by rewrite (ends_models_truthy _ Hq).
Qed.

Lemma ends_models_not_gguf (s : string) :
  ends_models s → endswith (lower s) ".gguf" = false.
Proof.
  intros [->|[a ->]]; [done|].
  unfold endswith. rewrite lower_app, rev_app_distr. done.
Qed.









Lemma truthy_app_l (a b : string) : truthy a = true → truthy (a +:+ b) = true.
Proof. by destruct a. Qed.

Lemma truthy_app_r (a b : string) : truthy b = true → truthy (a +:+ b) = true.
Proof. destruct a; [done|]. by rewrite app_cons. Qed.



(** The functions on the values Python gives for the same inputs. *)
Example normpath_values :
  normpath "/u/models/../../etc/passwd" = "/etc/passwd"
  ∧ normpath "//a//b/./c/" = "//a/b/c"
  ∧ normpath "///a" = "/a"
  ∧ normpath "../x/../../y" = "../../y"
  ∧ normpath "" = "."
  ∧ normpath "a/.." = "."
  ∧ normpath "/.." = "/".
Proof. vm_compute. done. Qed.

Example abspath_values :
  abspath "/home/u" "models/m.gguf" = "/home/u/models/m.gguf"
  ∧ abspath "/home/u" "../v/./m.gguf" = "/home/v/m.gguf"
  ∧ abspath "/home/u" "/opt//m.gguf" = "/opt/m.gguf".
Proof. vm_compute. done. Qed.

Example dirname_values :
  dirname "/a/b/c.gguf" = "/a/b"
  ∧ dirname "c.gguf" = ""
  ∧ dirname "/c.gguf" = "/"
  ∧ dirname "//c" = "//"
  ∧ dirname "a//c" = "a".
Proof. vm_compute. done. Qed.

Example join_values :
  join "/a" "b" = "/a/b"
  ∧ join "/a/" "b" = "/a/b"
  ∧ join "" "b" = "b"
  ∧ join "/a" "/b" = "/b".
Proof. vm_compute. done. Qed.

Example string_values :
  endswith (lower "Model.GGUF") ".gguf" = true
  ∧ endswith (lower "model.gguf.part") ".gguf" = false
  ∧ strip "  a b  " = "a b"
  ∧ strip_slash "/TheBloke/x/" = "TheBloke/x"
  ∧ split_once "TheBloke/x/y" = Some ("TheBloke", "x/y")
  ∧ split_once "tiny" = None
  ∧ contains (upper "certificate verify failed") "CERTIFICATE" = true.
Proof. vm_compute. done. Qed.

Example int_values :
  Py.int_of_str "1_000" = Some 1000
  ∧ Py.int_of_str "_1" = None
  ∧ Py.int_of_str "1__0" = None
  ∧ Py.int_of_str "+5" = Some 5
  ∧ Py.int_of_str " 42 " = Some 42
  ∧ Py.int_of_str "-007" = Some (-7)
  ∧ Py.int_of_str "4.5" = None
  ∧ Py.int_of_str "" = None
  ∧ Py.int_of_str "abc" = None.
Proof. vm_compute. done. Qed.

End PathFacts.

(** ** The model store: [delete_model] *)

Module DeleteModelSpec.
Import PyStr OsPath Py Os LlamaDownload PathFacts Notions Fixtures.

(** The managed directory never looks like a model file: its normalised
    absolute path ends with the component [models]. *)
Lemma models_dir_abs_not_gguf (E : Env) :
  endswith (lower (normpath (abspath (cwd E) (get_models_dir E)))) ".gguf" = false.
Proof.
  apply ends_models_not_gguf, normpath_ends_models.
  unfold abspath. apply normpath_ends_models, ends_models_not_abs_join.
  apply join_ends_models.
Qed.

(** C1. [delete_model(P)] never raises. With [P'] the normalised absolute
    form of [P], it returns [True] exactly when [P'] starts with the
    managed directory followed by the separator, ends with [.gguf] whatever
    the case, and is an existing regular file; then [P'] is the managed
    directory, the separator and a name that is not empty (it is strictly
    inside), and the file at [P'] is removed and nothing else. In every
    other case it returns [False] and leaves the world as it was. *)
Theorem delete_model_spec (E : Env) (path : string) (w : World) :
  let P := normpath (abspath (cwd E) path) in
  let D := normpath (abspath (cwd E) (get_models_dir E)) in
  let ok := startswith P (D +:+ "/") && endswith (lower P) ".gguf" && isfile w P in
  delete_model E path w = (Ok ok, if ok then remove P w else w)
  ∧ (ok = true →
       (∃ rest, rest ≠ "" ∧ P = D +:+ "/" +:+ rest)
       ∧ fs (remove P w) !! P = None
       ∧ ∀ q, q ≠ P → fs (remove P w) !! q = fs w !! q).
Proof.
  intros P D ok. split.
  - unfold delete_model. fold P. fold D. subst ok.
    destruct (startswith P (D +:+ "/")) eqn:Hin; cbn [negb andb].
    + destruct (endswith (lower P) ".gguf"); cbn [negb andb]; [|done].
      destruct (isfile w P); done.
    + case_bool_decide as Heq; cbn [negb]; [|done].
      rewrite Heq. subst D. rewrite models_dir_abs_not_gguf. done.
  - subst ok. intros [[Hin Hg]%andb_true_iff _]%andb_true_iff.
    split; [|split].
    + apply startswith_inv in Hin as [rest Hrest]. exists rest.
      rewrite app_assoc in Hrest. split; [|done].
      intros ->. rewrite Hrest, <- app_assoc, app_empty_r in Hg.
      by rewrite ends_slash_not_gguf in Hg.
    + apply lookup_delete_eq.
    + intros q Hq. by apply lookup_delete_ne.
Qed.

Lemma delete_model_spec_witness :
  delete_model offline_env "models/../.config/Thonny/models/a.gguf" store_world
  = (Ok true, remove "/home/u/.config/Thonny/models/a.gguf" store_world)
  ∧ fs (remove "/home/u/.config/Thonny/models/a.gguf" store_world)
      !! "/home/u/.config/Thonny/models/a.gguf" = None.
Proof.
  destruct (delete_model_spec offline_env "models/../.config/Thonny/models/a.gguf"
              store_world) as [Hres Hok].
  split.
  - exact Hres.
  - apply Hok. vm_compute. reflexivity.
Defined.

(** A traversal out of the managed directory is refused, and so is a file
    without the extension. *)
Example delete_traversal_refused :
  delete_model offline_env "/home/u/.config/Thonny/models/../secret.gguf" store_world
  = (Ok false, store_world).
Proof. reflexivity. Qed.

Example delete_wrong_extension_refused :
  delete_model offline_env "/home/u/.config/Thonny/models/notes.txt" store_world
  = (Ok false, store_world).
Proof. reflexivity. Qed.

Example delete_inside_succeeds :
  fst (delete_model offline_env "/home/u/.config/Thonny/models/./a.gguf" store_world)
  = Ok true.
Proof. reflexivity. Qed.

End DeleteModelSpec.

(** ** The downloader: the guard of [download_file] and [download_model] *)

Module DownloadSpec.
Import PyStr OsPath Py Os LlamaDownload PathFacts Notions Fixtures.

(** What the loops leave alone. *)
Lemma isfile_write (p : string) (chunk : list Byte.byte) (w : World) :
  isfile (write p chunk w) p = true.
Proof.
  unfold isfile, write, with_fs. cbn [fs].
  destruct (fs w !! p) as [[t c|l]|]; by rewrite lookup_insert_eq.
Qed.

Lemma isfile_open_wb (p : string) (w : World) : isfile (open_wb p w) p = true.
Proof. unfold isfile, open_wb, with_fs. cbn [fs]. by rewrite lookup_insert_eq. Qed.


Lemma read_loop_isfile dest cb total size chunks w :
  isfile w dest = true →
  isfile (read_loop dest cb total size chunks w) dest = true.
Proof.
  revert size w. induction chunks as [|c r IH]; intros size w Hw; [done|].
  cbn [read_loop]. case_bool_decide; [done|].
  apply IH. destruct (cb && total_positive total); apply isfile_write.
Qed.




(** A download that returns [True] leaves a regular file at the
    destination. *)
Lemma transfer_leaves_file E url dest cb w w' :
  transfer E url dest cb w = (Ok true, w') → isfile w' dest = true.
Proof.
  unfold transfer.
  destruct (if truthy (dirname dest) then makedirs (dirname dest) w else (Ok tt, w))
    as [[[]|e] w1]; [|done].
  destruct (urlopen E url) as [resp|e]; [|done].
  destruct (parse_total (content_length resp)); [|done].
  intros [= <-]. apply read_loop_isfile, isfile_open_wb.
Qed.





Example download_twice :
  let first :=
    download_file serving_env "https://h/b.gguf"
      "/home/u/.config/Thonny/models/b.gguf" false true one_model_world in
  fst first = Ok true
  ∧ requests (snd first) = ["https://h/b.gguf"]
  ∧ download_file serving_env "https://h/b.gguf"
      "/home/u/.config/Thonny/models/b.gguf" false true (snd first)
    = (Ok false, snd first).
Proof. vm_compute. done. Qed.

(** C10. When the resolved destination exists and [force] is false,
    [download_model] returns that destination and the world is as it was
    (no request went out); and whenever [download_model] returns, after a
    download or after skipping it, its result is that same destination,
    never [None]. *)
Theorem download_model_skip_returns_path (E : Env) (hf_repo hf_file : string)
    (progress_callback : bool) (output_filename : option string) (w : World) :
  (isfile w (dest_of E hf_file output_filename) = true →
     download_model E hf_repo hf_file false progress_callback output_filename w
       = (Ok (Some (dest_of E hf_file output_filename)), w))
  ∧ (∀ force r w',
       download_model E hf_repo hf_file force progress_callback output_filename w
         = (Ok r, w') →
       r = Some (dest_of E hf_file output_filename)).
Proof.
  split.
  - intros Hf. unfold download_model. fold (dest_of E hf_file output_filename).
    by rewrite Hf.
  - intros force r w'. unfold download_model.
    fold (dest_of E hf_file output_filename).
    destruct (isfile w _ && negb force); [by intros [= <- _]|].
    destruct (download_file _ _ _ _ _ _) as [[b|e] w1]; [by intros [= <- _]|done].
Qed.

Lemma download_model_skip_returns_path_witness :
  download_model serving_env "TheBloke/x-GGUF" "a.gguf" false true None one_model_world
  = (Ok (Some "/home/u/.config/Thonny/models/a.gguf"), one_model_world).
Proof.
  apply (download_model_skip_returns_path serving_env "TheBloke/x-GGUF" "a.gguf"
           true None one_model_world).
  vm_compute. reflexivity.
Defined.

Example download_model_fresh :
  fst (download_model serving_env "TheBloke/x-GGUF" "b" false true None one_model_world)
  = Ok (Some "/home/u/.config/Thonny/models/b.gguf").
Proof. vm_compute. reflexivity. Qed.

Example hf_url_example :
  _hf_url " TheBloke/x-GGUF/ " "b.gguf" "main"
  = "https://huggingface.co/TheBloke/x-GGUF/resolve/main/b.gguf".
Proof. reflexivity. Qed.

End DownloadSpec.

(** ** The downloader: progress reports *)

Module ProgressSpec.
Import PyStr OsPath Py Os LlamaDownload Notions Fixtures.





















End ProgressSpec.

(** ** Auto-detection of a local model *)

Module DetectSpec.
Import PyStr OsPath Py Os Assistant Notions Fixtures.

(** The head of the sorted list has the greatest key. *)
Lemma head_insert_desc x l :
  head (insert_desc x l) =
    Some match l with
         | [] => x
         | y :: _ => if fst y <=? fst x then x else y
         end.
Proof. destruct l as [|y r]; [done|]. cbn. by destruct (fst y <=? fst x). Qed.

Lemma head_sort_desc (l : list (Z * string)) :
  l ≠ [] →
  ∃ m, head (sort_desc l) = Some m ∧ m ∈ l ∧ ∀ y, y ∈ l → fst y ≤ fst m.
Proof.
  induction l as [|x r IH]; [done|]. intros _.
  unfold sort_desc. cbn [foldr]. fold (sort_desc r).
  rewrite head_insert_desc.
  destruct r as [|x' r'].
  - exists x. cbn. split; [done|]. split; [left|].
    intros y ?%list_elem_of_singleton. by subst.
  - destruct IH as (m & Hm & Hin & Hmax); [done|].
    destruct (sort_desc (x' :: r')) as [|y tl]; [done|].
    cbn in Hm. injection Hm as ->.
    destruct (Z.leb_spec (fst m) (fst x)).
    + exists x. split; [done|]. split; [left|].
      intros y [->|Hy]%elem_of_cons; [lia|]. specialize (Hmax y Hy). lia.
    + exists m. split; [done|]. split; [by right|].
      intros y [->|Hy]%elem_of_cons; [lia|]. by apply Hmax.
Qed.

(** Every match is a regular file, so its key exists. *)
Lemma is_probably_gguf_mtime w p :
  _is_probably_gguf w p = true → ∃ t, mtime_of w p = Some t ∧ getmtime w p = Ok t.
Proof.
  unfold _is_probably_gguf, isfile, mtime_of, getmtime.
  destruct (fs w !! p) as [[t c|l]|]; [|done..]. eauto.
Qed.

Lemma scan_dir_spec w d p :
  p ∈ scan_dir w d ↔
  ∃ names name,
    fs w !! d = Some (Dir (Some names)) ∧ name ∈ names ∧ p = join d name
    ∧ isfile w p = true ∧ endswith (lower p) ".gguf" = true.
Proof.
  unfold scan_dir, isdir, listdir.
  destruct (fs w !! d) as [[t c|[names|]]|] eqn:Hd.
  - split; [by intros ?%elem_of_nil | by intros (? & ? & ? & _)].
  - rewrite list_elem_of_filter, list_elem_of_fmap. unfold _is_probably_gguf.
    rewrite andb_true_iff. split.
    + intros ([Hf Hg] & name & -> & Hn). by exists names, name.
    + intros (names' & name & [= <-] & Hn & -> & Hf & Hg). eauto.
  - split; [by intros ?%elem_of_nil | by intros (? & ? & ? & _)].
  - split; [by intros ?%elem_of_nil | by intros (? & ? & ? & _)].
Qed.

(** The matches are exactly the regular files with the extension that one
    of the directories lists: nothing deeper, nothing from a directory that
    is missing or cannot be read. *)
Lemma candidates_spec E w p :
  p ∈ candidates E w ↔
  ∃ d names name,
    d ∈ common_dirs E ∧ fs w !! d = Some (Dir (Some names)) ∧ name ∈ names
    ∧ p = join d name ∧ isfile w p = true ∧ endswith (lower p) ".gguf" = true.
Proof.
  unfold candidates. rewrite list_elem_of_In, in_flat_map. split.
  - intros (d & Hd%list_elem_of_In & Hp%list_elem_of_In).
    apply scan_dir_spec in Hp as (names & name & ?). by exists d, names, name.
  - intros (d & names & name & Hd & H). exists d.
    split; [by apply list_elem_of_In|]. apply list_elem_of_In, scan_dir_spec.
    by exists names, name.
Qed.

Lemma candidates_gguf E w p :
  p ∈ candidates E w → _is_probably_gguf w p = true.
Proof.
  intros (d & names & name & _ & _ & _ & _ & Hf & Hg)%candidates_spec.
  unfold _is_probably_gguf. by rewrite Hf, Hg.
Qed.

Lemma with_mtime_ok w (l : list string) :
  (∀ p, p ∈ l → _is_probably_gguf w p = true) →
  ∃ keyed, with_mtime w l = Ok keyed
    ∧ ∀ t p, (t, p) ∈ keyed ↔ p ∈ l ∧ mtime_of w p = Some t.
Proof.
  induction l as [|p r IH]; intros Hall.
  - exists []. split; [done|]. intros t p. split.
    + by intros ?%elem_of_nil.
    + by intros [?%elem_of_nil _].
  - destruct IH as (kr & Hkr & Hspec).
    { intros q Hq. apply Hall. by right. }
    destruct (is_probably_gguf_mtime w p) as (t & Ht & Hg).
    { apply Hall. by left. }
    exists ((t, p) :: kr). cbn [with_mtime]. rewrite Hg, Hkr. split; [done|].
    intros t' q. rewrite !elem_of_cons, Hspec. split.
    + intros [[= -> ->]|[Hq Hm]]; [by split; [left|] | by split; [right|]].
    + intros [[->|Hq] Hm]; [left; congruence | by right].
Qed.

(** C8, as the code has it. A path named by the environment that is an
    existing [.gguf] file is returned at once. Otherwise the matches are the
    regular files with the extension listed directly in one of the
    directories that can be read; with no match the result is [None];
    with matches the result is one of them, none of the others is more
    recent, and when their modification times are all distinct every other
    match is strictly older. The function never raises. *)
Theorem find_local_gguf_model_spec (E : Env) (w : World) :
  (truthy (env_path E) && _is_probably_gguf w (env_path E) = true →
     _find_local_gguf_model E w = Ok (Some (env_path E)))
  ∧ (truthy (env_path E) && _is_probably_gguf w (env_path E) = false →
     (∀ p, p ∈ candidates E w ↔
        ∃ d names name,
          d ∈ common_dirs E ∧ fs w !! d = Some (Dir (Some names)) ∧ name ∈ names
          ∧ p = join d name ∧ isfile w p = true
          ∧ endswith (lower p) ".gguf" = true)
     ∧ (candidates E w = [] → _find_local_gguf_model E w = Ok None)
     ∧ (candidates E w ≠ [] →
        ∃ p t,
          _find_local_gguf_model E w = Ok (Some p)
          ∧ p ∈ candidates E w ∧ mtime_of w p = Some t
          ∧ (∀ q tq, q ∈ candidates E w → mtime_of w q = Some tq → tq ≤ t)
          ∧ ((∀ q1 q2, q1 ∈ candidates E w → q2 ∈ candidates E w →
                mtime_of w q1 = mtime_of w q2 → q1 = q2) →
             ∀ q tq, q ∈ candidates E w → q ≠ p →
                mtime_of w q = Some tq → tq < t))).
Proof.
  split.
  - intros Hov. unfold _find_local_gguf_model. fold (env_path E). by rewrite Hov.
  - intros Hov. split; [apply candidates_spec|].
    unfold _find_local_gguf_model. fold (env_path E). rewrite Hov.
    fold (candidates E w). split.
    + intros ->. done.
    + intros Hne. rewrite bool_decide_eq_false_2 by done.
      destruct (with_mtime_ok w (candidates E w)) as (keyed & -> & Hk).
      { intros p. apply candidates_gguf. }
      assert (keyed ≠ []) as Hkne.
      { destruct (candidates E w) as [|p r] eqn:Hc; [done|].
        destruct (is_probably_gguf_mtime w p) as (t & Ht & _).
        { apply (candidates_gguf E). rewrite Hc. by left. }
        intros ->. eapply elem_of_nil, Hk. split; [by left | exact Ht]. }
      destruct (head_sort_desc keyed Hkne) as ([t p] & -> & Hin & Hmax).
      apply Hk in Hin as [Hp Ht].
      exists p, t. cbn. split; [done|]. split; [done|]. split; [done|].
      assert (∀ q tq, q ∈ candidates E w → mtime_of w q = Some tq → tq ≤ t) as Hle.
      { intros q tq Hq Hm. apply (Hmax (tq, q)), Hk. done. }
      split; [exact Hle|].
      intros Hdist q tq Hq Hqp Hm.
      pose proof (Hle q tq Hq Hm) as Hqt.
      destruct (Z.eq_dec tq t) as [->|]; [|lia].
      exfalso. apply Hqp, Hdist; [done..|]. by rewrite Hm, Ht.
Qed.

Lemma find_local_gguf_model_spec_witness :
  ∃ p t,
    _find_local_gguf_model offline_env detect_world = Ok (Some p)
    ∧ p ∈ candidates offline_env detect_world ∧ mtime_of detect_world p = Some t
    ∧ ∀ q tq, q ∈ candidates offline_env detect_world →
        mtime_of detect_world q = Some tq → tq ≤ t.
Proof.
  destruct (find_local_gguf_model_spec offline_env detect_world)
    as [_ (_ & _ & (p & t & Hr & Hp & Ht & Hle & _))].
  - vm_compute. reflexivity.
  - vm_compute. discriminate.
  - exists p, t. auto.
Defined.

Example find_local_most_recent :
  _find_local_gguf_model offline_env detect_world = Ok (Some "/home/u/Downloads/B.GGUF").
Proof. vm_compute. reflexivity. Qed.

(** C8 as the specification words it fails: with [THONNY_LLAMA_MODEL] naming an existing
    model file, the result is that file although it is in none of the
    directories and a match of the scan is more recent. *)
Lemma find_local_override_not_most_recent :
  _find_local_gguf_model override_env detect_world = Ok (Some "/opt/old.gguf")
  ∧ ("/opt/old.gguf" ∉ candidates override_env detect_world)
  ∧ ("/home/u/Downloads/B.GGUF" ∈ candidates override_env detect_world)
  ∧ mtime_of detect_world "/opt/old.gguf" = Some 1
  ∧ mtime_of detect_world "/home/u/Downloads/B.GGUF" = Some 20.
Proof.
  split; [vm_compute; reflexivity|]. split; [|split; [|split]].
  - apply (bool_decide_eq_false_1 ("/opt/old.gguf" ∈ candidates override_env detect_world)).
    vm_compute. reflexivity.
  - apply (bool_decide_eq_true_1 ("/home/u/Downloads/B.GGUF" ∈ candidates override_env detect_world)).
    vm_compute. reflexivity.
  - vm_compute. reflexivity.
  - vm_compute. reflexivity.
Qed.

End DetectSpec.

(** ** The loader: the context window *)

Module ContextWindowSpec.
Import PyStr Py Os Assistant Notions Fixtures.

(** C5. The context window given to the model lies in [512, 65536]
    whatever the option holds: 4096 when the option is not a number, 512
    when it is below 512, 65536 when it is above 65536, and the number
    itself otherwise; and this is the value [_preload_llama_model] builds
    the model with. *)
Theorem n_ctx_normalized (cfg : Config) (w : World) (v : pyval) :
  512 ≤ normalize_n_ctx v ≤ 65536
  ∧ (py_int v = None → normalize_n_ctx v = 4096)
  ∧ (∀ n, py_int v = Some n → n < 512 → normalize_n_ctx v = 512)
  ∧ (∀ n, py_int v = Some n → 65536 < n → normalize_n_ctx v = 65536)
  ∧ (∀ n, py_int v = Some n → 512 ≤ n ≤ 65536 → normalize_n_ctx v = n)
  ∧ (∀ job, preload_args cfg w = Some job →
       n_ctx job = normalize_n_ctx (llama_n_ctx cfg)
       ∧ 512 ≤ n_ctx job ≤ 65536).
Proof.
  assert (∀ u, 512 ≤ normalize_n_ctx u ≤ 65536) as Hrange.
  { intros u. unfold normalize_n_ctx. destruct (py_int u) as [n|]; [|lia].
    destruct (Z.ltb_spec n 512); [lia|]. destruct (Z.ltb_spec 65536 n); lia. }
  split; [apply Hrange|]. unfold normalize_n_ctx.
  split; [by intros ->|]. split; [|split; [|split]].
  - intros n -> Hn. destruct (Z.ltb_spec n 512); [done|lia].
  - intros n -> Hn. destruct (Z.ltb_spec n 512); [lia|].
    destruct (Z.ltb_spec 65536 n); [done|lia].
  - intros n -> Hn. destruct (Z.ltb_spec n 512); [lia|].
    destruct (Z.ltb_spec 65536 n); [lia|done].
  - intros job. unfold preload_args.
    destruct (negb _ || negb _); [done|]. intros [= <-]. cbn [n_ctx].
    split; [done|apply Hrange].
Qed.

Example n_ctx_examples :
  normalize_n_ctx (VInt 0) = 512
  ∧ normalize_n_ctx (VInt (-5)) = 512
  ∧ normalize_n_ctx (VStr "abc") = 4096
  ∧ normalize_n_ctx (VInt 999999) = 65536
  ∧ normalize_n_ctx (VStr "0") = 512
  ∧ normalize_n_ctx (VStr " -5 ") = 512
  ∧ normalize_n_ctx (VStr "999999") = 65536
  ∧ normalize_n_ctx VNone = 4096
  ∧ normalize_n_ctx (VStr "8192") = 8192
  ∧ normalize_n_ctx (VInt 4096) = 4096.
Proof. vm_compute. done. Qed.

Lemma n_ctx_normalized_witness :
  normalize_n_ctx (VStr "abc") = 4096
  ∧ normalize_n_ctx (VInt 0) = 512
  ∧ normalize_n_ctx (VInt 999999) = 65536
  ∧ normalize_n_ctx (VStr "2048") = 2048.
Proof.
  pose (cfg := {| backend := "local"; model := ""; base_url := "";
                  llama_model_path := ""; llama_chat_format := "";
                  llama_n_ctx := VInt 4096; max_tokens := VInt 0;
                  thinking := ""; instructions := ""; api_key := None |}).
  pose (w := {| fs := ∅; clock := 0; requests := []; progress := []; stdout := [] |}).
  split; [|split; [|split]].
  - destruct (n_ctx_normalized cfg w (VStr "abc")) as (_ & Hnone & _).
    apply Hnone. vm_compute. reflexivity.
  - destruct (n_ctx_normalized cfg w (VInt 0)) as (_ & _ & Hlow & _).
    apply (Hlow 0); [reflexivity | lia].
  - destruct (n_ctx_normalized cfg w (VInt 999999)) as (_ & _ & _ & Hhigh & _).
    apply (Hhigh 999999); [reflexivity | lia].
  - destruct (n_ctx_normalized cfg w (VStr "2048")) as (_ & _ & _ & _ & Hin & _).
    apply (Hin 2048); [vm_compute; reflexivity | lia].
Defined.

End ContextWindowSpec.

(** ** The chat bridge *)

Module ChatSpec.
Import PyStr Py Os Assistant Notions Fixtures.

Lemma fold_left_snoc_map {A B} (f : A → B) (l : list A) (init : list B) :
  fold_left (λ acc x, acc ++ [f x]) l init = init ++ (f <$> l).
Proof.
  revert init. induction l as [|x l IH]; intros init; cbn.
  - by rewrite app_nil_r.
  - by rewrite IH, <- app_assoc.
Qed.

Lemma update_last_content_snoc f init m :
  update_last_content f (init ++ [m])
  = init ++ [{| m_role := m_role m; m_content := f (m_content m) |}].
Proof.
  induction init as [|x init IH]; [done|].
  cbn [app update_last_content]. rewrite IH.
  by destruct init.
Qed.

(** The context text comes first in the new content, the original text
    last. *)
Lemma with_git_context_contains g c :
  ∃ pre mid, with_git_context g c = pre +:+ g +:+ mid +:+ c.
Proof.
  exists ("Current git context:" +:+ newline), (newline +:+ newline +:+ "---" +:+ newline +:+ newline).
  unfold with_git_context. by rewrite !PathFacts.app_assoc.
Qed.

(** C4. The list given to the local model starts with the system entry
    exactly when the instructions are not empty, then has one entry per
    message of the conversation, in order, with its role coerced. When git
    context is present and the last entry has the role ["user"], the
    content of that entry becomes the context text followed by the original
    text; otherwise the list is left as it is. *)
Theorem messages_to_llama_chat_spec (H : Host) (cfg : Config) (context : ChatContext) :
  (∀ msg, m_role (llama_entry H msg) = coerced_role (role msg))
  ∧ (truthy (_get_system_instructions cfg) = true →
       base_messages H cfg context
       = {| m_role := "system"; m_content := _get_system_instructions cfg |}
           :: (llama_entry H <$> messages context))
  ∧ (truthy (_get_system_instructions cfg) = false →
       base_messages H cfg context = llama_entry H <$> messages context)
  ∧ (∀ g init m,
       git_info context = Some g → truthy g = true →
       base_messages H cfg context = init ++ [m] → m_role m = "user" →
       _messages_to_llama_chat H cfg context
       = init ++ [{| m_role := "user"; m_content := with_git_context g (m_content m) |}]
       ∧ ∃ pre mid, with_git_context g (m_content m) = pre +:+ g +:+ mid +:+ m_content m)
  ∧ ((∀ g, git_info context = Some g → truthy g = false) →
       _messages_to_llama_chat H cfg context = base_messages H cfg context)
  ∧ (∀ m, last (base_messages H cfg context) = Some m → m_role m ≠ "user" →
       _messages_to_llama_chat H cfg context = base_messages H cfg context).
Proof.
  assert (∀ out, fold_left (λ acc msg, acc ++ [llama_entry H msg]) (messages context) out
                 = out ++ (llama_entry H <$> messages context)) as Hfold.
  { intros out. apply fold_left_snoc_map. }
  split; [done|]. split; [by unfold base_messages; intros ->|].
  split; [by unfold base_messages; intros ->|].
  unfold _messages_to_llama_chat. rewrite Hfold. fold (base_messages H cfg context).
  split; [|split].
  - intros g init m -> Hg -> Hm. rewrite last_snoc, Hg, Hm.
    rewrite bool_decide_eq_true_2 by done. cbn [andb].
    rewrite update_last_content_snoc, Hm.
    split; [done | apply with_git_context_contains].
  - intros Hno. destruct (git_info context) as [g|]; [|done].
    rewrite (Hno g eq_refl). cbn [andb]. by destruct (last _).
  - intros m -> Hm. destruct (git_info context) as [g|]; [|done].
    rewrite bool_decide_eq_false_2 by done. by rewrite andb_false_r.
Qed.

Lemma messages_to_llama_chat_spec_witness :
  _messages_to_llama_chat plain_host local_cfg scenario4
  = [ {| m_role := "system"; m_content := "Be brief." |};
      {| m_role := "user";
         m_content := with_git_context "Branch: main" "What changed?" |} ].
Proof.
  destruct (messages_to_llama_chat_spec plain_host local_cfg scenario4)
    as (_ & _ & _ & Hgit & _).
  apply (Hgit "Branch: main" [{| m_role := "system"; m_content := "Be brief." |}]
           {| m_role := "user"; m_content := "What changed?" |});
    reflexivity.
Defined.

Example scenario4_content :
  with_git_context "Branch: main" "What changed?"
  = "Current git context:
Branch: main

---

What changed?".
Proof. reflexivity. Qed.

(** C6. On the local path, with the model loaded: if the call that opens
    the stream raises, [complete_chat] yields one chunk, the error chunk;
    if the stream raises after some items, [complete_chat] yields the
    partial chunks of those items and then one more chunk, the error chunk.
    The error chunk is final, flagged as an internal error, and its text
    holds the text of the exception and the pointer to [frontend.log]. In
    both cases no exception leaves [complete_chat]. *)
Theorem local_stream_exception (H : Host) (cfg : Config) (w : World) (sh : Shared)
    (context : ChatContext) (llm : Llama) (e : exn) :
  messages context ≠ [] →
  backend cfg = "local" →
  truthy (strip (llama_model_path cfg)) = true →
  isfile w (strip (llama_model_path cfg)) = true →
  _get_llama_model sh = Some llm →
  let opened :=
    create_chat_completion H llm (_messages_to_llama_chat H cfg context)
      (if negb (_get_max_tokens cfg =? 0) then _get_max_tokens cfg else 2048) in
  (opened = Raise e →
     complete_chat H cfg w sh context = ([local_error_chunk e], None))
  ∧ (∀ stream, opened = Ok stream → failure stream = Some e →
       complete_chat H cfg w sh context
       = (partial_chunks (chunk_content <$> items stream) ++ [local_error_chunk e],
          None)
       ∧ Forall (λ c, is_final c = false ∧ is_interal_error c = false)
           (partial_chunks (chunk_content <$> items stream))).
Proof.
  intros Hne Hb Hp Hf Hl opened.
  assert (complete_chat H cfg w sh context = local_completion H cfg llm context)
    as Hcc.
  { unfold complete_chat. destruct (messages context); [done|].
    rewrite Hb, Hp, Hf, Hl. by rewrite bool_decide_eq_true_2. }
  rewrite Hcc. unfold local_completion. fold opened. split.
  - by intros ->.
  - intros stream -> ->. split; [done|].
    unfold partial_chunks. apply Forall_fmap, Forall_forall. done.
Qed.

Lemma local_stream_exception_witness :
  complete_chat plain_host local_cfg model_world loaded scenario4
  = ([ {| text := "Hel"; is_final := false; is_interal_error := false |};
       {| text := "lo"; is_final := false; is_interal_error := false |};
       {| text := "Error: context overflow. See frontend.log for details.";
          is_final := true; is_interal_error := true |} ],
     None).
Proof.
  destruct (local_stream_exception plain_host local_cfg model_world loaded scenario4
              {| model_path := "/m/a.gguf"; chat_format := Some "llama-2"; n_ctx := 4096 |}
              (Exn "RuntimeError" "context overflow")) as [_ Hs].
  - discriminate.
  - reflexivity.
  - reflexivity.
  - vm_compute. reflexivity.
  - reflexivity.
  - destruct (Hs _ eq_refl eq_refl) as [Hc _]. exact Hc.
Defined.

(** C9. For a conversation without messages [complete_chat] yields one
    chunk, with empty text, final and not an error, and ends; the host, the
    configuration, the file system and the loader's state play no part. *)
Theorem empty_conversation (H : Host) (cfg : Config) (w : World) (sh : Shared)
    (git : option string) :
  complete_chat H cfg w sh {| messages := []; git_info := git |}
  = ([{| text := ""; is_final := true; is_interal_error := false |}], None).
Proof. reflexivity. Qed.

End ChatSpec.

(** ** The loader: concurrent loads *)

Module LoaderSpec.
Import PyStr Py Os Assistant Notions Fixtures.

Lemma thread_step_consistent H cfg w sh t :
  consistent sh → consistent (fst (thread_step H cfg w sh t)).
Proof.
  intros Hc. destruct t as [|job|job [e|]|wrote]; cbn; try done.
  - destruct (preload_args cfg w); [|done].
    destruct (llama_cpp_import H); cbn; [by left | by right].
  - by left.
  - by right.
Qed.

Lemma act_consistent H cfg w p a :
  consistent (shared p) → consistent (shared (act H cfg w p a)).
Proof.
  intros Hc. destruct a as [|i]; [done|]. cbn.
  destruct (threads p !! i) as [t|]; [|done].
  pose proof (thread_step_consistent H cfg w (shared p) t Hc) as Hs.
  by destruct (thread_step H cfg w (shared p) t).
Qed.

Lemma act_threads H cfg w p a :
  length (threads (act H cfg w p a))
  = (length (threads p) + if is_start a then 1 else 0)%nat.
Proof.
  destruct a as [|i]; cbn.
  - by rewrite length_app.
  - destruct (threads p !! i) as [t|]; [|lia].
    destruct (thread_step H cfg w (shared p) t). cbn.
    rewrite length_insert. lia.
Qed.

Lemma run_invariant H cfg w p schedule :
  consistent (shared p) →
  consistent (shared (run H cfg w p schedule))
  ∧ length (threads (run H cfg w p schedule))
    = (length (threads p) + starts schedule)%nat.
Proof.
  revert p. induction schedule as [|a s IH]; intros p Hc.
  - cbn. split; [done|]. unfold starts. cbn. lia.
  - cbn [run fold_left]. fold (run H cfg w (act H cfg w p a) s).
    destruct (IH (act H cfg w p a)) as [Hc' Hl]; [by apply act_consistent|].
    split; [done|]. rewrite Hl, act_threads. unfold starts.
    rewrite filter_cons. destruct a; cbn.
    + rewrite decide_True by done. cbn. lia.
    + rewrite decide_False by done. lia.
Qed.

Lemma writes_and_flights (l : list thread) :
  (length (filter (λ t, wrote_thread t = true) l)
   + length (filter (λ t, in_flight_thread t = true) l) ≤ length l)%nat.
Proof.
  induction l as [|t l IH]; [done|].
  rewrite !filter_cons.
  destruct t as [|job|job o|[]]; cbn;
    repeat (first [rewrite decide_True by done | rewrite decide_False by done]);
    cbn; lia.
Qed.

(** C2, as the code has it. [_start_llama_preload] has no guard: every call
    starts a thread of its own, so the threads are as many as the calls,
    whatever the schedule. With a model file configured and the engine
    installed, two calls in a row followed by one step of each thread leave
    two loads in flight at once, and when both have run to their end each
    has made its own terminal write. Every write sets the two shared fields
    together, so they never hold a model and an error at once, and the
    terminal writes and the loads in flight never outnumber the calls. *)
Theorem start_preload_unguarded (H : Host) (cfg : Config) (w : World)
    (schedule : list action) :
  let p := run H cfg w startup schedule in
  length (threads p) = starts schedule
  ∧ (terminal_writes p + in_flight p ≤ starts schedule)%nat
  ∧ consistent (shared p)
  ∧ (∀ job, preload_args cfg w = Some job → llama_cpp_import H = None →
       in_flight (run H cfg w startup [StartPreload; StartPreload; Run 0; Run 1]) = 2%nat
       ∧ terminal_writes
           (run H cfg w startup
              [StartPreload; StartPreload; Run 0; Run 1; Run 0; Run 1; Run 0; Run 1])
         = 2%nat).
Proof.
  intros p.
  destruct (run_invariant H cfg w startup schedule) as [Hc Hl]; [by left|].
  cbn in Hl. fold p in Hc, Hl.
  split; [done|]. split; [|split; [done|]].
  - rewrite <- Hl. unfold terminal_writes, in_flight. apply writes_and_flights.
  - intros job Hj Hi. split.
    + cbn. rewrite Hj, Hi. cbn. rewrite Hj, Hi. reflexivity.
    + cbn. rewrite Hj, Hi. cbn. rewrite Hj, Hi. cbn.
      destruct (Llama_init H job); reflexivity.
Qed.

Lemma start_preload_unguarded_witness :
  in_flight (run plain_host local_cfg model_world startup
               [StartPreload; StartPreload; Run 0; Run 1]) = 2%nat
  ∧ terminal_writes
      (run plain_host local_cfg model_world startup
         [StartPreload; StartPreload; Run 0; Run 1; Run 0; Run 1; Run 0; Run 1])
    = 2%nat.
Proof.
  destruct (start_preload_unguarded plain_host local_cfg
              model_world []) as (_ & _ & _ & Htwo).
  apply (Htwo {| model_path := "/m/a.gguf"; chat_format := Some "llama-2";
                 n_ctx := 4096 |}).
  - vm_compute. reflexivity.
  - reflexivity.
Defined.

(** C2 as the specification words it fails: after two calls in quick succession, before
    the first load completes, two loads are in flight, and at the end two
    terminal writes have been made. *)
Lemma two_starts_two_loads :
  in_flight (run plain_host local_cfg model_world startup
               [StartPreload; StartPreload; Run 0; Run 1]) ≠ 1%nat
  ∧ terminal_writes
      (run plain_host local_cfg model_world startup
         [StartPreload; StartPreload; Run 0; Run 1; Run 0; Run 1; Run 0; Run 1])
    ≠ 1%nat.
Proof. split; vm_compute; discriminate. Qed.

End LoaderSpec.

(** ** Paths of files directly inside the managed directory *)

Module ChildPathFacts.
Import PyStr OsPath Py Os LlamaDownload Notions PathFacts.

Lemma split_slash_nonempty (s : string) : split_slash s ≠ [].
Proof.
  induction s as [|c s IH]; [done|]. cbn [split_slash].
  destruct (is_slash c); [done|]. by destruct (split_slash s).
Qed.

Lemma split_slash_app_exact (a b : string) :
  split_slash (a +:+ "/" +:+ b) = split_slash a ++ split_slash b.
Proof.
  induction a as [|c a IH]; [done|].
  rewrite (app_cons c a). cbn [split_slash]. rewrite IH.
  destruct (is_slash c); [done|].
  pose proof (split_slash_nonempty a) as Hne.
  by destruct (split_slash a).
Qed.

Lemma split_plain (s : string) : plain s = true → split_slash s = [s].
Proof.
  unfold plain. induction s as [|c s IH]; [done|].
  cbn [list_ascii_of_string forallb split_slash].
  intros [Hc Hs]%andb_true_iff. apply negb_true_iff in Hc.
  by rewrite Hc, (IH Hs).
Qed.

Lemma plain_not_abs (s : string) : plain s = true → startswith s "/" = false.
Proof.
  destruct s as [|c s]; [done|]. unfold plain.
  cbn [list_ascii_of_string forallb startswith].
  intros [Hc _]%andb_true_iff. apply negb_true_iff in Hc. unfold is_slash in Hc.
  destruct (Ascii.eqb_spec "/"%char c) as [<-|]; [done|done].
Qed.

Lemma length_app (a b : string) :
  String.length (a +:+ b) = (String.length a + String.length b)%nat.
Proof. induction a as [|c a IH]; [done|]. rewrite app_cons. cbn. by rewrite IH. Qed.

Lemma startswith_app_long (a b p : string) :
  (String.length p ≤ String.length a)%nat →
  startswith (a +:+ b) p = startswith a p.
Proof.
  revert a. induction p as [|x p IH]; intros a Hl; [by destruct a, b|].
  destruct a as [|y a]; [cbn in Hl; lia|].
  rewrite app_cons. cbn [startswith]. rewrite IH; [done|]. cbn in Hl. lia.
Qed.

Lemma startswith_app_self (a b : string) : startswith (a +:+ b) a = true.
Proof.
  induction a as [|c a IH]; [by destruct b|].
  rewrite app_cons. cbn [startswith]. by rewrite Ascii.eqb_refl, IH.
Qed.

Lemma startswith_app_l (a b p : string) :
  startswith a p = true → startswith (a +:+ b) p = true.
Proof.
  intros [r ->]%startswith_inv. rewrite app_assoc. apply startswith_app_self.
Qed.

Lemma endswith_app_r (a b s : string) :
  endswith b s = true → endswith (a +:+ b) s = true.
Proof. unfold endswith. rewrite rev_app_distr. apply startswith_app_l. Qed.

Lemma ends_models_length (X : string) : ends_models X → (3 ≤ String.length X)%nat.
Proof.
  intros [->|[a ->]]; [cbn; lia|]. rewrite length_app. cbn. lia.
Qed.

Lemma ends_models_no_trailing_slash (X : string) :
  ends_models X → endswith X "/" = false.
Proof.
  intros [->|[a ->]]; [done|]. unfold endswith. by rewrite rev_app_distr.
Qed.

Lemma initial_slashes_app (X y : string) :
  (3 ≤ String.length X)%nat → initial_slashes (X +:+ y) = initial_slashes X.
Proof.
  intros Hl. unfold initial_slashes.
  rewrite !startswith_app_long; [done|cbn; lia..].
Qed.

(** The components [normpath] keeps for a path that ends with [models]. *)
Lemma norm_comps_ends_models (n : nat) (X : string) :
  ends_models X →
  ∃ acc, fold_left (norm_step n) (split_slash X) [] = acc ++ ["models"].
Proof.
  intros [l Hl]%ends_models_split. rewrite Hl, fold_left_app. cbn [fold_left].
  by eexists.
Qed.

Lemma normpath_child (X name : string) :
  ends_models X → plain name = true →
  name ≠ "" → name ≠ "." → name ≠ ".." →
  normpath (X +:+ "/" +:+ name) = normpath X +:+ "/" +:+ name.
Proof.
  intros HX Hp H0 H1 H2. unfold normpath.
  rewrite (truthy_app_l X _ (ends_models_truthy X HX)), (ends_models_truthy X HX).
  cbn [negb].
  rewrite initial_slashes_app by (by apply ends_models_length).
  rewrite split_slash_app_exact, (split_plain name Hp), fold_left_app.
  cbn [fold_left].
  destruct (norm_comps_ends_models (initial_slashes X) X HX) as [acc ->].
  assert (norm_step (initial_slashes X) (acc ++ ["models"]) name
          = (acc ++ ["models"]) ++ [name]) as ->.
  { unfold norm_step. rewrite !bool_decide_eq_false_2 by done. done. }
  rewrite (join_slash_snoc (acc ++ ["models"]) name).
  assert (truthy (join_slash (acc ++ ["models"])) = true) as Hj.
  { rewrite join_slash_snoc. destruct acc; [done|]. by apply truthy_app_r. }
  destruct (acc ++ ["models"]) as [|z l] eqn:Hacc; [by destruct acc|].
  unfold or_else.
  rewrite (truthy_app_r (slashes (initial_slashes X)) _ Hj).
  rewrite (truthy_app_r (slashes (initial_slashes X)) _
             (truthy_app_l _ ("/" +:+ name) Hj)).
  by rewrite app_assoc.
Qed.

Lemma anchored_child (cwd X y : string) :
  truthy X = true → anchored cwd (X +:+ y) = anchored cwd X +:+ y.
Proof.
  intros HX. unfold anchored, isabs, join.
  assert (startswith (X +:+ y) "/" = startswith X "/") as ->.
  { apply startswith_app_long. destruct X; [done|cbn; lia]. }
  destruct (startswith X "/"); [done|].
  destruct (negb (truthy cwd) || endswith cwd "/"); by rewrite ?app_assoc.
Qed.

(** The normalised absolute form of a file directly inside the managed
    directory is the normalised directory, the separator and the name. *)
Lemma normalised_child (E : Env) (name : string) :
  plain name = true → name ≠ "" → name ≠ "." → name ≠ ".." →
  join (get_models_dir E) name = get_models_dir E +:+ "/" +:+ name
  ∧ normpath (abspath (cwd E) (join (get_models_dir E) name))
    = normpath (abspath (cwd E) (get_models_dir E)) +:+ "/" +:+ name.
Proof.
  intros Hp H0 H1 H2.
  pose proof (join_ends_models (thonny_user_dir E)) as Hmd.
  fold (get_models_dir E) in Hmd.
  assert (join (get_models_dir E) name = get_models_dir E +:+ "/" +:+ name) as Hj.
  { unfold join at 1. rewrite (plain_not_abs name Hp).
    by rewrite (ends_models_truthy _ Hmd), (ends_models_no_trailing_slash _ Hmd). }
  split; [done|]. rewrite Hj. unfold abspath.
  fold (anchored (cwd E) (get_models_dir E +:+ "/" +:+ name)).
  fold (anchored (cwd E) (get_models_dir E)).
  rewrite anchored_child by (by apply ends_models_truthy).
  pose proof (ends_models_not_abs_join (cwd E) _ Hmd) as Ha.
  fold (anchored (cwd E) (get_models_dir E)) in Ha.
  rewrite (normpath_child _ name Ha) by done.
  by rewrite (normpath_child _ name (normpath_ends_models _ Ha)).
Qed.

Lemma gguf_name_proper (name : string) :
  endswith (lower name) ".gguf" = true → name ≠ "" ∧ name ≠ "." ∧ name ≠ "..".
Proof. intros H. repeat split; intros ->; done. Qed.

End ChildPathFacts.

(** ** The model store: listing, and deleting what is listed *)

Module StoreSpec.
Import PyStr OsPath Py Os LlamaDownload Notions Fixtures PathFacts ChildPathFacts.

Lemma StronglySorted_filter_keep {A} (R : relation A) (P : A → Prop)
    `{∀ x, Decision (P x)} (l : list A) :
  StronglySorted R l → StronglySorted R (filter P l).
Proof.
  induction 1 as [|x l Hl IH Hx]; [constructor|].
  rewrite filter_cons. destruct (decide (P x)); [|done].
  constructor; [done|]. apply Forall_forall.
  intros y [_ Hy]%list_elem_of_filter. rewrite Forall_forall in Hx. auto.
Qed.

Lemma fmap_pair_fst {A B} (g : A → B) (xs : list A) :
  ((λ x, (x, g x)) <$> xs).*1 = xs.
Proof. induction xs as [|x xs IH]; [done|]. cbn. by rewrite IH. Qed.

Lemma fmap_pair_snd {A B} (g : A → B) (xs : list A) :
  ((λ x, (x, g x)) <$> xs).*2 = g <$> xs.
Proof. induction xs as [|x xs IH]; [done|]. cbn. by rewrite IH. Qed.

(** [list_models] gives the empty list when the managed directory is not
    a directory, and fails when that directory cannot be listed. Otherwise
    its names are the names of the listing that carry the extension, as
    many times as the listing has them and in increasing order, and each
    comes with its path in the managed directory. *)
Theorem list_models_spec (E : Env) (w : World) :
  (isdir w (get_models_dir E) = false → list_models E w = Ok [])
  ∧ (fs w !! get_models_dir E = Some (Dir None) → ∃ e, list_models E w = Raise e)
  ∧ (∀ names, fs w !! get_models_dir E = Some (Dir (Some names)) →
       ∃ l, list_models E w = Ok l
         ∧ l.*1 ≡ₚ filter (λ name, endswith (lower name) ".gguf" = true) names
         ∧ StronglySorted String.le (l.*1)
         ∧ l.*2 = join (get_models_dir E) <$> l.*1).
Proof.
  unfold list_models, isdir, listdir. split; [by intros ->|]. split.
  - intros ->. cbn. by eexists.
  - intros names ->. cbn [negb]. eexists. split; [done|].
    rewrite fmap_pair_snd, !fmap_pair_fst. split; [|split].
    + unfold sorted_names. by rewrite merge_sort_Permutation.
    + apply StronglySorted_filter_keep. unfold sorted_names.
      apply StronglySorted_merge_sort; apply _.
    + done.
Qed.

Lemma list_models_spec_witness :
  ∃ l, list_models offline_env detect_world = Ok l
    ∧ l.*1 ≡ₚ filter (λ name, endswith (lower name) ".gguf" = true)
                ["a.gguf"; "sub"; "readme.txt"]
    ∧ StronglySorted String.le (l.*1)
    ∧ l.*2 = join (get_models_dir offline_env) <$> l.*1.
Proof.
  destruct (list_models_spec offline_env detect_world) as (_ & _ & Hl).
  apply Hl. vm_compute. reflexivity.
Defined.

Example list_models_values :
  list_models offline_env detect_world
  = Ok [("a.gguf", "/home/u/.config/Thonny/models/a.gguf")]
  ∧ list_models offline_env store_world = Ok []
  ∧ sorted_names ["b.gguf"; "B.gguf"; "a.gguf"; "a.GGUF"]
    = ["B.gguf"; "a.GGUF"; "a.gguf"; "b.gguf"].
Proof. vm_compute. done. Qed.

(** Deleting a file directly inside the managed directory that carries the
    extension: the result tells whether the normalised path is a regular
    file, and that file is what is removed. *)
Lemma delete_child (E : Env) (name : string) (w : World) :
  plain name = true → endswith (lower name) ".gguf" = true →
  let P := normpath (abspath (cwd E) (get_models_dir E)) +:+ "/" +:+ name in
  delete_model E (join (get_models_dir E) name) w
  = (Ok (isfile w P), if isfile w P then remove P w else w).
Proof.
  intros Hp Hg P. destruct (gguf_name_proper name Hg) as (H0 & H1 & H2).
  destruct (normalised_child E name Hp H0 H1 H2) as [_ Hn].
  unfold delete_model. rewrite Hn. fold P.
  assert (startswith P (normpath (abspath (cwd E) (get_models_dir E)) +:+ "/") = true)
    as ->.
  { subst P. rewrite <- app_assoc. apply startswith_app_self. }
  assert (endswith (lower P) ".gguf" = true) as ->.
  { subst P. rewrite !lower_app. by do 2 apply endswith_app_r. }
  cbn [negb andb]. by destruct (isfile w P).
Qed.

(** Every model [list_models] lists can be deleted with [delete_model]:
    when the managed directory is given in normalised absolute form and the
    listing holds names without separator, [delete_model] of a listed path
    returns [True] exactly when that path is a regular file, and removes
    it. *)
Theorem delete_listed_model (E : Env) (w : World) (l : list (string * string))
    (name path : string) :
  normpath (abspath (cwd E) (get_models_dir E)) = get_models_dir E →
  list_models E w = Ok l →
  (name, path) ∈ l →
  plain name = true →
  delete_model E path w
  = (Ok (isfile w path), if isfile w path then remove path w else w).
Proof.
  intros Hnorm Hl Hin Hp.
  assert (endswith (lower name) ".gguf" = true ∧ path = join (get_models_dir E) name)
    as [Hg ->].
  { unfold list_models in Hl. destruct (negb _).
    - injection Hl as <-. by apply elem_of_nil in Hin.
    - destruct (listdir w (get_models_dir E)) as [names|e]; [|done].
      injection Hl as <-.
      apply list_elem_of_fmap in Hin as (n & [= -> ->] & [Hg _]%list_elem_of_filter).
      done. }
  pose proof (delete_child E name w Hp Hg) as Hd. cbn zeta in Hd.
  destruct (gguf_name_proper name Hg) as (H0 & H1 & H2).
  destruct (normalised_child E name Hp H0 H1 H2) as [Hj _].
  rewrite Hnorm, <- Hj in Hd. exact Hd.
Qed.

Lemma delete_listed_model_witness :
  delete_model offline_env "/home/u/.config/Thonny/models/a.gguf" detect_world
  = (Ok true, remove "/home/u/.config/Thonny/models/a.gguf" detect_world).
Proof.
  apply (delete_listed_model offline_env detect_world
           [("a.gguf", "/home/u/.config/Thonny/models/a.gguf")] "a.gguf").
  - vm_compute. reflexivity.
  - vm_compute. reflexivity.
  - left.
  - reflexivity.
Defined.

End StoreSpec.

(** ** The downloader: what a download leaves on disk *)

Module TransferSpec.
Import PyStr OsPath Py Os LlamaDownload Assistant Notions Fixtures PathFacts
  ChildPathFacts.

(** The loop appends the chunks it consumes to the file at the
    destination, and touches no other path. *)
Lemma read_loop_content dest cb total size chunks w t c :
  fs w !! dest = Some (File t c) →
  fs (read_loop dest cb total size chunks w) !! dest
  = Some (File t (c ++ concat (consumed chunks))).
Proof.
  revert size w c. induction chunks as [|ch r IH]; intros size w c Hw.
  - cbn. by rewrite app_nil_r.
  - cbn [read_loop consumed]. case_bool_decide.
    + cbn. by rewrite app_nil_r.
    + cbn [concat]. rewrite List.app_assoc. apply IH.
      destruct (cb && total_positive total); cbn; rewrite Hw;
        by rewrite lookup_insert_eq.
Qed.

Lemma read_loop_frame dest cb total size chunks w q :
  q ≠ dest →
  fs (read_loop dest cb total size chunks w) !! q = fs w !! q.
Proof.
  intros Hq. revert size w. induction chunks as [|ch r IH]; intros size w; [done|].
  cbn [read_loop]. case_bool_decide; [done|]. rewrite IH.
  destruct (cb && total_positive total); cbn;
    destruct (fs w !! dest) as [[t c|l]|]; by rewrite lookup_insert_ne.
Qed.

Lemma read_loop_clock dest cb total size chunks w :
  clock (read_loop dest cb total size chunks w) = clock w.
Proof.
  revert size w. induction chunks as [|ch r IH]; intros size w; [done|].
  cbn [read_loop]. case_bool_decide; [done|]. rewrite IH.
  by destruct (cb && total_positive total).
Qed.

(** Creating the directory of the destination leaves every regular file
    as it is. *)
Lemma makedirs_files d w q t c :
  fs (snd (makedirs d w)) !! q = Some (File t c) ↔ fs w !! q = Some (File t c).
Proof.
  unfold makedirs. destruct (truthy d); [|done]. cbn [snd].
  destruct (fs w !! d) eqn:Hd; [done|]. cbn.
  destruct (decide (d = q)) as [->|Hne].
  - rewrite lookup_insert_eq, Hd. split; done.
  - by rewrite lookup_insert_ne.
Qed.

Lemma makedirs_clock d w : clock (snd (makedirs d w)) = clock w.
Proof.
  unfold makedirs. destruct (truthy d); [|done]. cbn. by destruct (fs w !! d).
Qed.

(** [transfer] in one piece: the world [w1] after the directory of the
    destination was made holds the same regular files as before. *)
Lemma transfer_cases E url dest cb w :
  ∃ w1,
    (∀ q t c, fs w1 !! q = Some (File t c) ↔ fs w !! q = Some (File t c))
    ∧ clock w1 = clock w
    ∧ transfer E url dest cb w
      = match urlopen E url with
        | Raise e => (Raise e, with_request url w1)
        | Ok resp =>
            match parse_total (content_length resp) with
            | Raise e => (Raise e, with_request url w1)
            | Ok total =>
                (Ok true,
                 read_loop dest cb total 0 (reads resp)
                   (open_wb dest (with_request url w1)))
            end
        end.
Proof.
  unfold transfer. destruct (truthy (dirname dest)) eqn:Hd.
  - exists (snd (makedirs (dirname dest) w)).
    split; [apply makedirs_files|]. split; [apply makedirs_clock|].
    unfold makedirs. rewrite Hd. cbn [snd]. done.
  - exists w. done.
Qed.

(** A download that returns [True] leaves at the destination a regular
    file whose contents are the chunks read, in order, up to the first
    empty one, whatever was there before; the file carries the time of the
    write, and every other regular file is as it was. *)
Theorem download_writes_body (E : Env) (url dest_path : string) (force : bool)
    (progress_callback : bool) (w w' : World) :
  download_file E url dest_path force progress_callback w = (Ok true, w') →
  ∃ resp,
    urlopen E url = Ok resp
    ∧ fs w' !! dest_path
      = Some (File (clock w) (concat (consumed (reads resp))))
    ∧ ∀ q t c, q ≠ dest_path →
        (fs w' !! q = Some (File t c) ↔ fs w !! q = Some (File t c)).
Proof.
  unfold download_file. destruct (isfile w dest_path && negb force); [done|].
  destruct (transfer_cases E url dest_path progress_callback w)
    as (w1 & Hfiles & Hclock & ->).
  destruct (urlopen E url) as [resp|e]; [|done].
  destruct (parse_total (content_length resp)) as [total|e]; [|done].
  intros [= <-]. exists resp. split; [done|]. split.
  - rewrite (read_loop_content _ _ _ _ _ _ (clock w1) []).
    + by rewrite Hclock.
    + cbn. by rewrite lookup_insert_eq.
  - intros q t c Hq. rewrite read_loop_frame by done. cbn.
    rewrite lookup_insert_ne by done. apply Hfiles.
Qed.

Lemma download_writes_body_witness :
  ∃ resp,
    urlopen serving_env "https://h/b.gguf" = Ok resp
    ∧ fs (snd (download_file serving_env "https://h/b.gguf"
                 "/home/u/.config/Thonny/models/a.gguf" true true one_model_world))
        !! "/home/u/.config/Thonny/models/a.gguf"
      = Some (File (clock one_model_world) (concat (consumed (reads resp))))
    ∧ ∀ q t c, q ≠ "/home/u/.config/Thonny/models/a.gguf" →
        (fs (snd (download_file serving_env "https://h/b.gguf"
                    "/home/u/.config/Thonny/models/a.gguf" true true one_model_world))
           !! q = Some (File t c)
         ↔ fs one_model_world !! q = Some (File t c)).
Proof.
  apply (download_writes_body serving_env "https://h/b.gguf"
           "/home/u/.config/Thonny/models/a.gguf" true true one_model_world).
  vm_compute. reflexivity.
Defined.



Lemma join_endswith (a b s : string) :
  endswith (lower b) s = true → endswith (lower (join a b)) s = true.
Proof.
  intros Hb. unfold join. destruct (startswith b "/"); [done|].
  destruct (negb (truthy a) || endswith a "/");
    rewrite !lower_app; by repeat apply endswith_app_r.
Qed.

Lemma dest_of_gguf (E : Env) (hf_file : string) (output_filename : option string) :
  endswith (lower (dest_of E hf_file output_filename)) ".gguf" = true.
Proof.
  unfold dest_of. apply join_endswith.
  destruct (endswith (lower (or_else _ hf_file)) ".gguf") eqn:Hg; cbn [negb]; [done|].
  rewrite lower_app. by apply endswith_app_r.
Qed.

(** Whenever [download_model] returns, after a download or after skipping
    it, the path it returns carries the extension and is a regular file:
    auto-detection and the preload recognise it as a model. *)
Theorem download_model_leaves_model (E : Env) (hf_repo hf_file : string)
    (force : bool) (progress_callback : bool) (output_filename : option string)
    (w w' : World) (r : option string) :
  download_model E hf_repo hf_file force progress_callback output_filename w
    = (Ok r, w') →
  ∃ p, r = Some p
    ∧ endswith (lower p) ".gguf" = true
    ∧ isfile w' p = true
    ∧ _is_probably_gguf w' p = true.
Proof.
  unfold download_model. fold (dest_of E hf_file output_filename).
  pose proof (dest_of_gguf E hf_file output_filename) as Hg.
  set (p := dest_of E hf_file output_filename) in *.
  assert (isfile w' p = true → ∃ q, Some p = Some q
            ∧ endswith (lower q) ".gguf" = true ∧ isfile w' q = true
            ∧ _is_probably_gguf w' q = true) as Hdone.
  { intros Hf. exists p. unfold _is_probably_gguf. by rewrite Hf, Hg. }
  unfold download_file.
  destruct (isfile w p && negb force) eqn:Hskip.
  - intros [= <- <-]. apply Hdone. by apply andb_true_iff in Hskip as [? _].
  - destruct (transfer E _ p progress_callback w) as [[b|e] w1] eqn:Ht; [|done].
    intros [= <- <-]. apply Hdone.
    destruct b.
    + by apply DownloadSpec.transfer_leaves_file in Ht.
    + unfold transfer in Ht.
      destruct (if truthy (dirname p) then _ else _) as [[[]|?] ?]; [|done].
      destruct (urlopen E _); [|done].
      by destruct (parse_total _).
Qed.

Lemma download_model_leaves_model_witness :
  ∃ p, Some "/home/u/.config/Thonny/models/b.gguf" = Some p
    ∧ endswith (lower p) ".gguf" = true
    ∧ isfile (snd (download_model serving_env "TheBloke/x-GGUF" "b" false true None
                     one_model_world)) p = true
    ∧ _is_probably_gguf
        (snd (download_model serving_env "TheBloke/x-GGUF" "b" false true None
                one_model_world)) p = true.
Proof.
  apply (download_model_leaves_model serving_env "TheBloke/x-GGUF" "b" false true
           None one_model_world).
  vm_compute. reflexivity.
Defined.

Lemma plain_app (a b : string) : plain (a +:+ b) = plain a && plain b.
Proof.
  unfold plain. induction a as [|c a IH]; [done|].
  rewrite app_cons. cbn [list_ascii_of_string forallb]. by rewrite IH, andb_assoc.
Qed.

(** What was downloaded can be deleted: with the managed directory in
    normalised absolute form and a file name without separator,
    [delete_model] of the path [download_model] returned returns [True]
    and removes it. *)
Theorem download_then_delete (E : Env) (hf_repo hf_file : string)
    (force : bool) (progress_callback : bool) (output_filename : option string)
    (w w' : World) (p : string) :
  normpath (abspath (cwd E) (get_models_dir E)) = get_models_dir E →
  plain (or_else (default "" output_filename) hf_file) = true →
  download_model E hf_repo hf_file force progress_callback output_filename w
    = (Ok (Some p), w') →
  delete_model E p w' = (Ok true, remove p w')
  ∧ isfile (remove p w') p = false.
Proof.
  intros Hnorm Hplain Hd.
  destruct (download_model_leaves_model _ _ _ _ _ _ _ _ _ Hd)
    as (p' & [= <-] & Hg & Hf & _).
  assert (p = dest_of E hf_file output_filename) as Hp.
  { unfold download_model in Hd. fold (dest_of E hf_file output_filename) in Hd.
    destruct (isfile w _ && negb force); [by injection Hd|].
    destruct (download_file _ _ _ _ _ _) as [[b|e] w1]; [by injection Hd|done]. }
  unfold dest_of in Hp.
  set (fn := if negb (endswith (lower (or_else (default "" output_filename) hf_file)) ".gguf")
             then or_else (default "" output_filename) hf_file +:+ ".gguf"
             else or_else (default "" output_filename) hf_file) in *.
  assert (plain fn = true) as Hpf.
  { subst fn. destruct (negb _); [|done]. by rewrite plain_app, Hplain. }
  assert (endswith (lower fn) ".gguf" = true) as Hgf.
  { subst fn. destruct (endswith (lower (or_else _ hf_file)) ".gguf") eqn:Hx;
      cbn [negb]; [done|]. rewrite lower_app. by apply endswith_app_r. }
  pose proof (StoreSpec.delete_child E fn w' Hpf Hgf) as Hdel. cbn zeta in Hdel.
  destruct (gguf_name_proper fn Hgf) as (H0 & H1 & H2).
  destruct (normalised_child E fn Hpf H0 H1 H2) as [Hj _].
  rewrite Hnorm, <- Hj, <- Hp, Hf in Hdel. split; [exact Hdel|].
  unfold isfile, remove, with_fs. cbn. by rewrite lookup_delete_eq.
Qed.

Lemma download_then_delete_witness :
  delete_model serving_env "/home/u/.config/Thonny/models/b.gguf"
    (snd (download_model serving_env "TheBloke/x-GGUF" "b" false true None
            one_model_world))
  = (Ok true,
     remove "/home/u/.config/Thonny/models/b.gguf"
       (snd (download_model serving_env "TheBloke/x-GGUF" "b" false true None
               one_model_world)))
  ∧ isfile (remove "/home/u/.config/Thonny/models/b.gguf"
              (snd (download_model serving_env "TheBloke/x-GGUF" "b" false true None
                      one_model_world)))
      "/home/u/.config/Thonny/models/b.gguf" = false.
Proof.
  apply (download_then_delete serving_env "TheBloke/x-GGUF" "b" false true None
           one_model_world).
  - vm_compute. reflexivity.
  - vm_compute. reflexivity.
  - vm_compute. reflexivity.
Defined.

End TransferSpec.

(** ** The chat bridge: the stream it yields and the backend it asks *)

Module BridgeSpec.
Import PyStr Py Os Assistant Notions Fixtures.

Lemma partial_chunks_shape (texts : list string) :
  Forall (λ c, is_final c = false ∧ is_interal_error c = false ∧ text c ≠ "")
    (partial_chunks texts).
Proof.
  unfold partial_chunks. apply Forall_fmap, Forall_forall.
  intros s [Hs _]%list_elem_of_filter. cbn. by destruct s.
Qed.

(** Whatever the host, the configuration, the files and the loader's
    state, [complete_chat] yields a stream that ends with exactly one final
    chunk, which is either the empty terminal chunk or an error; every
    chunk before it is a partial one with text; and no exception leaves
    [complete_chat]. *)
Theorem chat_stream_contract (H : Host) (cfg : Config) (w : World) (sh : Shared)
    (context : ChatContext) :
  ∃ init final,
    complete_chat H cfg w sh context = (init ++ [final], None)
    ∧ is_final final = true
    ∧ (final = final_chunk ∨ is_interal_error final = true)
    ∧ Forall (λ c, is_final c = false ∧ is_interal_error c = false ∧ text c ≠ "")
        init.
Proof.
  assert (∀ init final,
            is_final final = true →
            (final = final_chunk ∨ is_interal_error final = true) →
            Forall (λ c, is_final c = false ∧ is_interal_error c = false ∧ text c ≠ "")
              init →
            ∃ init' final',
              (init ++ [final], @None exn) = (init' ++ [final'], None)
              ∧ is_final final' = true
              ∧ (final' = final_chunk ∨ is_interal_error final' = true)
              ∧ Forall (λ c, is_final c = false ∧ is_interal_error c = false
                             ∧ text c ≠ "") init') as Hmk.
  { intros init final ???. by exists init, final. }
  unfold complete_chat. destruct (messages context) as [|m ms] eqn:Hm.
  - apply (Hmk [] final_chunk); [done|by left|constructor].
  - destruct (_ && _ && _).
    + destruct (_get_llama_model sh) as [llm|].
      * unfold local_completion.
        destruct (create_chat_completion H llm _ _) as [stream|e].
        -- destruct (failure stream) as [e|].
           ++ apply Hmk; [done|by right|apply partial_chunks_shape].
           ++ apply Hmk; [done|by left|apply partial_chunks_shape].
        -- apply (Hmk [] (error_chunk _)); [done|by right|constructor].
      * destruct (truthy _).
        -- apply (Hmk [] (error_chunk _)); [done|by right|constructor].
        -- apply (Hmk [] (error_chunk _)); [done|by right|constructor].
    + unfold remote_completion. destruct (_get_agent H cfg) as [agent|e].
      * rewrite Hm. destruct (last (m :: ms)) as [last_msg|] eqn:Hl.
        -- destruct (run_stream_sync H agent _ _ _) as [stream|e].
           ++ destruct (failure stream) as [e|].
              ** apply Hmk; [done|by right|apply partial_chunks_shape].
              ** apply Hmk; [done|by left|apply partial_chunks_shape].
           ++ apply (Hmk [] (error_chunk _)); [done|by right|constructor].
        -- exfalso. by apply last_None in Hl.
      * apply (Hmk [] (error_chunk _)); [done|by right|constructor].
Qed.

(** The model is never asked for a completion bounded by zero tokens, and
    the agent never gets a token setting that is not positive: a host that
    refuses both yields the same stream. *)
Theorem chat_token_limit (H : Host) (cfg : Config) (w : World) (sh : Shared)
    (context : ChatContext) :
  complete_chat (strict_host H) cfg w sh context = complete_chat H cfg w sh context.
Proof.
  unfold complete_chat. destruct (messages context) as [|m ms] eqn:Hm; [done|].
  destruct (_ && _ && _).
  - destruct (_get_llama_model sh) as [llm|]; [|done].
    unfold local_completion. cbn [create_chat_completion strict_host].
    assert (_messages_to_llama_chat (strict_host H) cfg context
            = _messages_to_llama_chat H cfg context) as -> by done.
    destruct (negb (_get_max_tokens cfg =? 0)) eqn:Hz; [|done].
    apply negb_true_iff in Hz. by rewrite Hz.
  - unfold remote_completion.
    assert (_get_agent (strict_host H) cfg = _get_agent H cfg) as -> by done.
    destruct (_get_agent H cfg) as [agent|e]; [|done].
    destruct (last (messages context)) as [last_msg|]; [|done].
    cbn [run_stream_sync strict_host format_message].
    assert (∀ l i, _build_message_history (strict_host H) l i
                   = _build_message_history H l i) as Hh by done.
    rewrite Hh.
    destruct (0 <? _get_max_tokens cfg) eqn:Hz; [|done].
    apply Z.ltb_lt in Hz. destruct (Z.leb_spec (_get_max_tokens cfg) 0); [lia|done].
Qed.

(** The backend is chosen once. With the local backend and a configured
    model file that exists, the agent library plays no part, whether the
    model is loaded, loading or failed: there is no falling back to the
    remote path. In every other case the local model, the loader's state
    and the translations play no part. *)
Theorem chat_routing (H H' : Host) (cfg : Config) (w : World) (sh sh' : Shared)
    (context : ChatContext) :
  (bool_decide (backend cfg = "local") && truthy (strip (llama_model_path cfg))
     && isfile w (strip (llama_model_path cfg)) = true →
   format_message H = format_message H' → tr H = tr H' →
   create_chat_completion H = create_chat_completion H' →
   complete_chat H cfg w sh context = complete_chat H' cfg w sh context)
  ∧ (bool_decide (backend cfg = "local") && truthy (strip (llama_model_path cfg))
       && isfile w (strip (llama_model_path cfg)) = false →
     format_message H = format_message H' →
     pydantic_ai_import H = pydantic_ai_import H' →
     run_stream_sync H = run_stream_sync H' →
     complete_chat H cfg w sh context = complete_chat H' cfg w sh' context).
Proof.
  split.
  - intros Hl Hf Ht Hc. unfold complete_chat. rewrite Hl.
    destruct (messages context) as [|m ms] eqn:Hm; [done|].
    destruct (_get_llama_model sh) as [llm|].
    + unfold local_completion, _messages_to_llama_chat, llama_entry.
      by rewrite Hf, Hc.
    + by rewrite Ht.
  - intros Hl Hf Hi Hr. unfold complete_chat. rewrite Hl.
    destruct (messages context) as [|m ms] eqn:Hm; [done|].
    unfold remote_completion, _get_agent, _build_message_history.
    by rewrite Hf, Hi, Hr.
Qed.

Lemma chat_routing_witness :
  complete_chat plain_host local_cfg model_world loaded scenario4
  = complete_chat no_agent_host local_cfg model_world loaded scenario4.
Proof.
  destruct (chat_routing plain_host no_agent_host local_cfg model_world loaded loaded
              scenario4) as [Hlocal _].
  apply Hlocal.
  - vm_compute. reflexivity.
  - reflexivity.
  - reflexivity.
  - reflexivity.
Defined.

(** One message of the history loop. *)
Lemma history_step (instr : string) (m : ChatMessage) :
  (if bool_decide (role m = "user")
   then [ModelRequest (content m) instr]
   else if bool_decide (role m = "assistant") && truthy (default "" (content m))
   then [ModelResponse (default "" (content m))]
   else [])
  = (if from_user m then [ModelRequest (content m) instr] else [])
    ++ (if answered m then [ModelResponse (default "" (content m))] else []).
Proof.
  unfold from_user, answered.
  destruct (bool_decide (role m = "user")); cbn [negb andb]; [done|].
  by destruct (bool_decide (role m = "assistant") && truthy (default "" (content m))).
Qed.

Lemma history_counts (instr : string) (msgs : list ChatMessage) (l : list HistoryItem) :
  flat_map (λ msg : ChatMessage,
    if bool_decide (role msg = "user")
    then [ModelRequest (content msg) instr]
    else if bool_decide (role msg = "assistant")
            && truthy (default "" (content msg))
    then [ModelResponse (default "" (content msg))]
    else []) msgs = l →
  length (filter (λ h, is_request h = true) l)
    = length (filter (λ m, from_user m = true) msgs)
  ∧ length (filter (λ h, is_response h = true) l)
    = length (filter (λ m, answered m = true) msgs)
  ∧ Forall (λ h, match h with ModelRequest _ i => i = instr | _ => True end) l
  ∧ (l = [] ↔ Forall (λ m, from_user m = false ∧ answered m = false) msgs).
Proof.
  revert l. induction msgs as [|m ms IH]; intros l <-.
  - cbn. repeat split; done.
  - cbn [flat_map]. rewrite history_step.
    remember (flat_map _ ms) as out eqn:Hout.
    destruct (IH out eq_refl) as (IH1 & IH2 & IH3 & IH4). clear IH Hout.
    rewrite !(filter_cons _ m), Forall_cons, <- IH4.
    destruct (from_user m), (answered m); cbn [app].
    + rewrite !filter_cons. cbn.
      repeat (first [rewrite decide_True by done | rewrite decide_False by done]).
      cbn [length]. rewrite IH1, IH2.
      split; [done|]. split; [done|]. split; [by repeat constructor|].
      split; [done | by intros [[? ?] ?]].
    + rewrite !filter_cons. cbn.
      repeat (first [rewrite decide_True by done | rewrite decide_False by done]).
      cbn [length]. rewrite IH1, IH2.
      split; [done|]. split; [done|]. split; [by repeat constructor|].
      split; [done | by intros [[? ?] ?]].
    + rewrite !filter_cons. cbn.
      repeat (first [rewrite decide_True by done | rewrite decide_False by done]).
      cbn [length]. rewrite IH1, IH2.
      split; [done|]. split; [done|]. split; [by repeat constructor|].
      split; [done | by intros [[? ?] ?]].
    + repeat (first [rewrite decide_True by done | rewrite decide_False by done]).
      rewrite IH1, IH2.
      split; [done|]. split; [done|]. split; [done|].
      split; [by intros -> | by intros [_ ?]].
Qed.

(** The history given to the agent is never an empty list: it is [None]
    when the agent library is missing or when no message counts. It holds
    one request for each message of the user, even one without text, and
    one response for each message of the assistant that has text; system
    messages and empty answers are left out; every request carries the
    instructions. *)
Theorem message_history_spec (H : Host) (msgs : list ChatMessage) (instr : string) :
  (pydantic_ai_import H ≠ None → _build_message_history H msgs instr = None)
  ∧ (∀ l, _build_message_history H msgs instr = Some l →
       l ≠ []
       ∧ length (filter (λ h, is_request h = true) l)
         = length (filter (λ m, from_user m = true) msgs)
       ∧ length (filter (λ h, is_response h = true) l)
         = length (filter (λ m, answered m = true) msgs)
       ∧ Forall (λ h, match h with ModelRequest _ i => i = instr | _ => True end) l)
  ∧ (pydantic_ai_import H = None →
     (_build_message_history H msgs instr = None
      ↔ Forall (λ m, from_user m = false ∧ answered m = false) msgs)).
Proof.
  unfold _build_message_history. split; [|split].
  - by destruct (pydantic_ai_import H).
  - intros l. destruct (pydantic_ai_import H); [done|].
    destruct (flat_map _ msgs) as [|h out] eqn:Ho; [done|].
    destruct (history_counts instr msgs _ Ho) as (H1 & H2 & H3 & _).
    intros [= <-]. done.
  - intros ->.
    destruct (flat_map _ msgs) as [|h out] eqn:Ho;
      destruct (history_counts instr msgs _ Ho) as (_ & _ & _ & H4).
    + split; [intros _; by apply H4 | done].
    + split; [done|]. intros Hall. by apply H4 in Hall.
Qed.

Lemma message_history_spec_witness :
  ∃ l, _build_message_history plain_host three_turns "Be brief." = Some l
    ∧ l ≠ []
    ∧ length (filter (λ h, is_request h = true) l) = 2%nat
    ∧ length (filter (λ h, is_response h = true) l) = 1%nat.
Proof.
  destruct (message_history_spec plain_host three_turns "Be brief.") as (_ & Hl & _).
  eexists. split; [vm_compute; reflexivity|].
  destruct (Hl _ eq_refl) as (Hne & Hq & Hr & _).
  split; [exact Hne|]. split; [exact Hq | exact Hr].
Defined.

End BridgeSpec.

(** ** The loader: one load from start to end *)

Module LoadCycleSpec.
Import PyStr Py Os Assistant Notions Fixtures.

(** The step of the thread started last. *)
Lemma act_last H cfg w sh l t :
  act H cfg w {| shared := sh; threads := l ++ [t] |} (Run (length l))
  = {| shared := fst (thread_step H cfg w sh t);
       threads := l ++ [snd (thread_step H cfg w sh t)] |}.
Proof.
  cbn. rewrite list_lookup_middle by done.
  destruct (thread_step H cfg w sh t) as [sh' t']. cbn.
  rewrite insert_app_r_alt by lia. by rewrite Nat.sub_diag.
Qed.

(** A load from its start to its end, whatever the loader held before and
    whatever other threads are waiting. Without a model file configured
    the thread ends at its first step and the shared state is untouched.
    Otherwise the first step clears the error and keeps the model held so
    far, or records the import error when the engine is missing; the third
    step publishes either the new model, with no error, or the text of the
    exception, with no model. *)
Theorem load_cycle (H : Host) (cfg : Config) (w : World) (p0 : Proc) :
  let i := length (threads p0) in
  (preload_args cfg w = None →
     run H cfg w p0 [StartPreload; Run i]
     = {| shared := shared p0; threads := threads p0 ++ [TFinished false] |})
  ∧ (∀ job e, preload_args cfg w = Some job → llama_cpp_import H = Some e →
       run H cfg w p0 [StartPreload; Run i]
       = {| shared := {| _llama_instance := None;
                         _llama_load_error := Some (exn_text e) |};
            threads := threads p0 ++ [TFinished true] |})
  ∧ (∀ job, preload_args cfg w = Some job → llama_cpp_import H = None →
       isfile w (model_path job) = true
       ∧ run H cfg w p0 [StartPreload; Run i]
         = {| shared := {| _llama_instance := _llama_instance (shared p0);
                           _llama_load_error := None |};
              threads := threads p0 ++ [TLoading job] |}
       ∧ run H cfg w p0 [StartPreload; Run i; Run i; Run i]
         = {| shared :=
                match Llama_init H job with
                | None => {| _llama_instance := Some job; _llama_load_error := None |}
                | Some e => {| _llama_instance := None;
                               _llama_load_error := Some (exn_text e) |}
                end;
              threads := threads p0 ++ [TFinished true] |}).
Proof.
  intros i. destruct p0 as [sh l]. cbn [threads shared] in *. subst i.
  assert (∀ rest,
            run H cfg w {| shared := sh; threads := l |}
              (StartPreload :: Run (length l) :: rest)
            = run H cfg w
                {| shared := fst (thread_step H cfg w sh TCreated);
                   threads := l ++ [snd (thread_step H cfg w sh TCreated)] |} rest)
    as Hstart.
  { intros rest. unfold run. cbn [fold_left].
    change (act H cfg w {| shared := sh; threads := l |} StartPreload)
      with {| shared := sh; threads := l ++ [TCreated] |}.
    by rewrite act_last. }
  assert (∀ sh' t rest,
            run H cfg w {| shared := sh'; threads := l ++ [t] |}
              (Run (length l) :: rest)
            = run H cfg w
                {| shared := fst (thread_step H cfg w sh' t);
                   threads := l ++ [snd (thread_step H cfg w sh' t)] |} rest)
    as Hnext.
  { intros sh' t rest. unfold run. cbn [fold_left]. by rewrite act_last. }
  rewrite !Hstart. cbn [thread_step].
  split; [|split].
  - intros ->. done.
  - intros job e -> ->. done.
  - intros job Hj Hi. split; [|split].
    + unfold preload_args in Hj.
      destruct (negb (truthy _) || negb (isfile w _)) eqn:Hc; [done|].
      injection Hj as <-. cbn. apply orb_false_iff in Hc as [_ Hf].
      by apply negb_false_iff in Hf.
    + rewrite Hj, Hi. done.
    + rewrite Hj, Hi. cbn [fst snd]. rewrite !Hnext. cbn.
      by destruct (Llama_init H job).
Qed.

Lemma load_cycle_witness :
  run plain_host local_cfg model_world
    {| shared := {| _llama_instance := None; _llama_load_error := Some "old" |};
       threads := [TFinished true] |}
    [StartPreload; Run 1; Run 1; Run 1]
  = {| shared := loaded; threads := [TFinished true; TFinished true] |}.
Proof.
  destruct (load_cycle plain_host local_cfg model_world
              {| shared := {| _llama_instance := None; _llama_load_error := Some "old" |};
                 threads := [TFinished true] |}) as (_ & _ & Hok).
  destruct (Hok {| model_path := "/m/a.gguf"; chat_format := Some "llama-2";
                   n_ctx := 4096 |}) as (_ & _ & Hend).
  - vm_compute. reflexivity.
  - reflexivity.
  - exact Hend.
Defined.

End LoadCycleSpec.

(** ** Configuration at startup: [_ensure_local_model_configured] *)

Module EnsureSpec.
Import PyStr OsPath Py Os Assistant Notions Fixtures DetectSpec.

(** Auto-detection never raises, and what it finds is a model file. *)
Lemma find_local_ok (E : Env) (w : World) :
  ∃ r, _find_local_gguf_model E w = Ok r
     ∧ ∀ f, r = Some f → _is_probably_gguf w f = true.
Proof.
  unfold _find_local_gguf_model. fold (env_path E).
  destruct (truthy (env_path E) && _is_probably_gguf w (env_path E)) eqn:Hov.
  - eexists. split; [done|]. intros f [= <-].
    by apply andb_true_iff in Hov as [_ ?].
  - fold (candidates E w). case_bool_decide as Hc.
    + eexists. split; [done|]. done.
    + destruct (with_mtime_ok w (candidates E w)) as (keyed & -> & Hk).
      { intros p. apply candidates_gguf. }
      eexists. split; [done|]. intros f Hf.
      destruct (sort_desc keyed) as [|[t p] tl] eqn:Hs; [done|].
      cbn in Hf. injection Hf as <-.
      assert (keyed ≠ []) as Hne by (by intros ->).
      destruct (head_sort_desc keyed Hne) as (m & Hm & Hin & _).
      rewrite Hs in Hm. cbn in Hm. injection Hm as <-.
      apply Hk in Hin as [Hin _]. by apply (candidates_gguf E).
Qed.

(** [_ensure_local_model_configured] never raises and writes two options
    at most. With a base URL, or with a configured path whose file exists,
    it changes nothing. Otherwise the path it leaves is the one it found,
    which is an existing model file, or is empty, or is the blank one it
    was given; and the backend changes only from ["api"] to ["local"], only
    when no API key is stored and a model was found. *)
Theorem ensure_local_model_frame (E : Env) (w : World) (cfg : Config) :
  ∃ cfg',
    _ensure_local_model_configured E w cfg = Ok cfg'
    ∧ (model cfg' = model cfg ∧ base_url cfg' = base_url cfg
       ∧ llama_chat_format cfg' = llama_chat_format cfg
       ∧ llama_n_ctx cfg' = llama_n_ctx cfg ∧ max_tokens cfg' = max_tokens cfg
       ∧ thinking cfg' = thinking cfg ∧ instructions cfg' = instructions cfg
       ∧ api_key cfg' = api_key cfg)
    ∧ (truthy (strip (base_url cfg)) = true → cfg' = cfg)
    ∧ (truthy (strip (llama_model_path cfg)) = true →
       isfile w (strip (llama_model_path cfg)) = true → cfg' = cfg)
    ∧ (llama_model_path cfg' = llama_model_path cfg
       ∨ llama_model_path cfg' = ""
       ∨ _is_probably_gguf w (llama_model_path cfg') = true)
    ∧ (backend cfg' = backend cfg
       ∨ (backend cfg' = "local" ∧ backend cfg = "api" ∧ no_api_key cfg = true
          ∧ _is_probably_gguf w (llama_model_path cfg') = true)).
Proof.
  destruct (find_local_ok E w) as (r & Hr & Hg).
  unfold _ensure_local_model_configured. rewrite Hr.
  destruct (truthy (strip (base_url cfg))) eqn:Hb.
  { exists cfg. repeat split; auto. }
  destruct (truthy (strip (llama_model_path cfg))) eqn:Hp;
    destruct (isfile w (strip (llama_model_path cfg))) eqn:Hf; cbn [andb negb];
    rewrite ?Hp.
  { exists cfg. repeat split; auto; congruence. }
  all: cbn [truthy].
  all: destruct (bool_decide (backend cfg = "local")) eqn:Hl; cbn [orb negb andb].
  all: try destruct (bool_decide (backend cfg = "api")) eqn:Ha; cbn [orb negb andb].
  all: try (change (no_api_key (set_llama_model_path "" cfg)) with (no_api_key cfg)).
  all: try destruct (no_api_key cfg) eqn:Hk; cbn [orb negb andb].
  all: try (destruct r as [f|]; cbn [default from_option id truthy];
            [destruct (truthy f) eqn:Htf|]).
  all: try (change (no_api_key (set_llama_model_path f _)) with (no_api_key cfg);
            rewrite ?Hk).
  all: eexists; (split; [reflexivity|]); cbn.
  all: repeat split; auto; try done; try congruence.
  all: try apply bool_decide_eq_true_1 in Ha.
  all: try (right; right; by apply Hg).
  all: try (right; repeat split; auto; by apply Hg).
Qed.

Ltac norm_cfg :=
  cbn [andb negb orb truthy default from_option id backend model base_url
       llama_model_path llama_chat_format llama_n_ctx max_tokens thinking
       instructions api_key].

(** Running [_ensure_local_model_configured] again on the options it left,
    with the files unchanged, changes nothing more. *)
Theorem ensure_local_model_idempotent (E : Env) (w : World) (cfg cfg' : Config) :
  _ensure_local_model_configured E w cfg = Ok cfg' →
  _ensure_local_model_configured E w cfg' = Ok cfg'.
Proof.
  destruct (find_local_ok E w) as (r & Hr & _).
  unfold _ensure_local_model_configured. rewrite Hr.
  destruct cfg as [b m bu p cf n mt th ins key].
  unfold no_api_key, set_backend, set_llama_model_path. norm_cfg.
  destruct (truthy (strip bu)) eqn:Hb.
  { intros Heq; simplify_eq. norm_cfg. by rewrite Hb. }
  destruct (truthy (strip p)) eqn:Hp;
    destruct (isfile w (strip p)) eqn:Hf; norm_cfg; rewrite ?Hp; norm_cfg.
  { intros Heq; simplify_eq. norm_cfg. rewrite Hb, Hp, Hf. norm_cfg. by rewrite Hp. }
  all: destruct (bool_decide (b = "local")) eqn:Hl;
    destruct (bool_decide (b = "api")) eqn:Ha;
    destruct (truthy (default "" key)) eqn:Hk; norm_cfg.
  all: destruct r as [f|]; norm_cfg; [destruct (truthy f) eqn:Htf|]; norm_cfg.
  all: intros Heq; simplify_eq; norm_cfg.
  all: try change (strip "") with "".
  all: rewrite ?Hb, ?Hp, ?Hf, ?Hl, ?Ha, ?Hk, ?Htf,
         ?(bool_decide_eq_true_2 ("local" = "local")) by done; norm_cfg.
  all: rewrite ?Hb, ?Hp, ?Hf, ?Hl, ?Ha, ?Hk, ?Htf; norm_cfg.
  all: try done.
  all: try (destruct (truthy (strip f)) eqn:Hsf; destruct (isfile w (strip f)) eqn:Hff;
    norm_cfg;
    rewrite ?Hsf, ?Hl, ?Ha, ?Hk, ?Htf, ?(bool_decide_eq_true_2 ("local" = "local")) by done;
    norm_cfg; rewrite ?Hsf, ?Hl, ?Ha, ?Hk, ?Htf; norm_cfg;
    done).
Qed.

Lemma ensure_local_model_idempotent_witness :
  _ensure_local_model_configured offline_env detect_world detected_cfg
  = Ok detected_cfg.
Proof.
  apply (ensure_local_model_idempotent offline_env detect_world fresh_cfg).
  vm_compute. reflexivity.
Defined.

Example ensure_values :
  _ensure_local_model_configured offline_env detect_world fresh_cfg = Ok detected_cfg
  ∧ _ensure_local_model_configured offline_env store_world fresh_cfg = Ok fresh_cfg
  ∧ _ensure_local_model_configured offline_env detect_world
      (set_llama_model_path "/gone.gguf" (set_backend "local" fresh_cfg))
    = Ok detected_cfg.
Proof. vm_compute. done. Qed.

End EnsureSpec.

(** ** The configuration page: the single model of the managed directory *)

Module SingleModelSpec.
Import PyStr OsPath Py Os LlamaDownload Assistant Notions Fixtures.

Lemma filter_sorted_names (P : string → Prop) `{∀ x, Decision (P x)}
    (names : list string) :
  filter P (sorted_names names) ≡ₚ filter P names.
Proof. unfold sorted_names. by rewrite merge_sort_Permutation. Qed.

(** [_single_gguf_in_models_dir] and [list_models] agree: the first fails
    exactly when the second does, with the same exception, and returns a
    path exactly when the second lists one model only, and then it is the
    path of that model. *)
Theorem single_gguf_agrees_with_list (E : Env) (w : World) :
  match list_models E w with
  | Ok l =>
      _single_gguf_in_models_dir E w
      = Ok (match l with [(_, path)] => Some path | _ => None end)
  | Raise e => _single_gguf_in_models_dir E w = Raise e
  end.
Proof.
  unfold list_models, _single_gguf_in_models_dir.
  destruct (negb (isdir w (get_models_dir E))); [done|].
  destruct (listdir w (get_models_dir E)) as [names|e]; [|done].
  pose proof (filter_sorted_names (λ f, endswith (lower f) ".gguf" = true) names)
    as Hp.
  destruct (filter _ names) as [|f [|g tl]] eqn:Hf.
  - apply Permutation_nil_r in Hp. by rewrite Hp.
  - apply Permutation_singleton_r in Hp. by rewrite Hp.
  - apply Permutation_length in Hp.
    destruct (filter _ (sorted_names names)) as [|f' [|g' tl']]; done.
Qed.

Example single_gguf_values :
  _single_gguf_in_models_dir offline_env detect_world
  = Ok (Some "/home/u/.config/Thonny/models/a.gguf")
  ∧ _single_gguf_in_models_dir offline_env store_world = Ok None.
Proof. vm_compute. done. Qed.

End SingleModelSpec.

(** ** The command-line script: [main] *)

Module ScriptSpec.
Import PyStr OsPath Py Os LlamaDownload Notions Fixtures PathFacts ChildPathFacts
  DownloadSpec StoreSpec TransferSpec.

Lemma script_read_loop_fs dest total size chunks w w' :
  fs w = fs w' → clock w = clock w' →
  fs (Script.read_loop dest total size chunks w)
  = fs (read_loop dest false total size chunks w').
Proof.
  revert size w w'. induction chunks as [|c r IH]; intros size w w' Hfs Hc; [done|].
  cbn [Script.read_loop read_loop andb]. case_bool_decide; [done|].
  apply IH.
  - destruct (total_positive total); [destruct (progress_args _ _) as [[? ?] ?]|];
      unfold write, with_print, with_fs; cbn [fs]; by rewrite Hfs, Hc.
  - by destruct (total_positive total); [destruct (progress_args _ _) as [[? ?] ?]|].
Qed.



(** When the script's [download_file] returns, the destination is a
    regular file. *)
Lemma script_download_ok_isfile E url dest force w b w' :
  Script.download_file E url dest force w = (Ok b, w') → isfile w' dest = true.
Proof.
  unfold Script.download_file.
  destruct (isfile w dest && negb force) eqn:Hc.
  { intros [= _ <-]. by apply andb_true_iff in Hc as [? _]. }
  destruct (makedirs (dirname dest) w) as [[[]|e] w1]; [|done].
  destruct (urlopen E url) as [resp|e]; [|done].
  destruct (parse_total (content_length resp)) as [total|e]; [|done].
  intros [= _ <-]. unfold isfile.
  match goal with
  | |- match fs (with_print _ (if ?c then _ else _)) !! _ with _ => _ end = _ =>
      destruct c
  end; cbn [with_print fs];
    rewrite (script_read_loop_fs _ _ _ _ _ _ eq_refl eq_refl);
    apply (read_loop_isfile dest false), isfile_open_wb.
Qed.


Lemma main_dest_gguf md name :
  endswith (lower (Script.main_dest_path md name)) ".gguf" = true.
Proof.
  unfold Script.main_dest_path. apply join_endswith.
  destruct (endswith (lower name) ".gguf") eqn:Hn; cbn [negb]; [done|].
  rewrite lower_app. by apply endswith_app_r.
Qed.

(** The listing loop prints one line per name and changes nothing else. *)
Lemma list_line_ext S md w1 w2 n :
  fs w1 = fs w2 → Script.list_line S md w1 n = Script.list_line S md w2 n.
Proof. intros Hfs. unfold Script.list_line, Script.getsize. by rewrite Hfs. Qed.

Lemma list_lines S md names w0 :
  let w' := fold_left (λ w n, with_print (Script.list_line S md w n) w) names w0 in
  fs w' = fs w0 ∧ clock w' = clock w0 ∧ requests w' = requests w0
  ∧ progress w' = progress w0
  ∧ stdout w' = stdout w0 ++ (Script.list_line S md w0 <$> names).
Proof.
  revert w0. induction names as [|n names IH]; intros w0; cbn zeta.
  - cbn. by rewrite app_nil_r.
  - cbn [fold_left fmap list_fmap].
    destruct (IH (with_print (Script.list_line S md w0 n) w0))
      as (Hfs & Hc & Hr & Hp & Hs).
    rewrite Hfs, Hc, Hr, Hp, Hs. cbn [with_print fs clock requests progress stdout].
    repeat split. by rewrite <- List.app_assoc.
Qed.

(** Sorting the names that carry the extension, as the script does, gives
    the list [list_models] builds by filtering the sorted names. *)
Lemma sorted_filter (P : string → Prop) `{∀ x, Decision (P x)} (names : list string) :
  sorted_names (filter P names) = filter P (sorted_names names).
Proof.
  apply (StronglySorted_unique String.le).
  - unfold sorted_names. apply StronglySorted_merge_sort; apply _.
  - apply StronglySorted_filter_keep. unfold sorted_names.
    apply StronglySorted_merge_sort; apply _.
  - unfold sorted_names. by rewrite !merge_sort_Permutation.
Qed.





(** The exit code of [main] is 1 exactly when no listing is asked for and
    the arguments name no source; then [main] prints the usage and the
    error, and neither the files nor the network are touched. *)
Theorem main_usage_error (S : Script.Sys) (E : Env) (args : Script.Args) (w : World) :
  (fst (Script.main S E args w) = Ok 1
   ↔ Script.arg_list args = false ∧ no_source args = true)
  ∧ (Script.arg_list args = false → no_source args = true →
     fs (snd (Script.main S E args w)) = fs w
     ∧ requests (snd (Script.main S E args w)) = requests w
     ∧ stdout (snd (Script.main S E args w))
       = stdout w
         ++ [Line (Script.usage S);
             ErrLine (String "010"%char
                        "Error: provide --url or both --hf-repo and --hf-file.")]).
Proof.
  unfold Script.main, no_source. fold (main_models_dir S E args).
  destruct (Script.arg_list args).
  - split; [|done]. split; [|by intros [[=] _]].
    destruct (negb (isdir w _)); [done|].
    destruct (listdir w _) as [entries|e]; [|done].
    by destruct (sorted_names _).
  - destruct (truthy (default "" (Script.arg_url args)));
      [|destruct (truthy (default "" (Script.arg_hf_repo args)) &&
                 truthy (default "" (Script.arg_hf_file args))) eqn:Hhf];
      cbn [negb andb].
    3: { split; [done|]. intros _ _. cbn. by rewrite <- List.app_assoc. }
    all: destruct (Script.download_file _ _ _ _ _) as [[b|e] w1]; cbn [fst].
    all: split; [split; [done|by intros [_ [=]]]|by intros _ [=]].
Qed.

Lemma main_usage_error_witness :
  fs (snd (Script.main posix_sys offline_env no_args store_world)) = fs store_world
  ∧ requests (snd (Script.main posix_sys offline_env no_args store_world))
    = requests store_world
  ∧ stdout (snd (Script.main posix_sys offline_env no_args store_world))
    = stdout store_world
      ++ [Line (Script.usage posix_sys);
          ErrLine (String "010"%char
                     "Error: provide --url or both --hf-repo and --hf-file.")].
Proof.
  destruct (main_usage_error posix_sys offline_env no_args store_world) as [_ H].
  apply H; reflexivity.
Defined.

(** With [--list], [main] only reads and prints, whatever the other
    arguments are: files, clock, requests and progress calls are as
    before. A models directory that does not exist is no error; a
    directory that cannot be listed makes [main] raise; otherwise [main]
    returns 0 after one line per model, for the names [list_models] gives
    and in its order. *)
Theorem main_list_spec (S : Script.Sys) (E : Env) (args : Script.Args) (w : World) :
  Script.arg_list args = true →
  (fs (snd (Script.main S E args w)) = fs w
   ∧ clock (snd (Script.main S E args w)) = clock w
   ∧ requests (snd (Script.main S E args w)) = requests w
   ∧ progress (snd (Script.main S E args w)) = progress w)
  ∧ (isdir w (main_models_dir S E args) = false →
     Script.main S E args w
     = (Ok 0, with_print (Line ("Models directory does not exist: "
                                  +:+ main_models_dir S E args)) w))
  ∧ (fs w !! main_models_dir S E args = Some (Dir None) →
     ∃ e, Script.main S E args w = (Raise e, w))
  ∧ (∀ entries, fs w !! main_models_dir S E args = Some (Dir (Some entries)) →
     fst (Script.main S E args w) = Ok 0
     ∧ stdout (snd (Script.main S E args w))
       = stdout w
         ++ listing S (main_models_dir S E args) w
              (filter (λ f, endswith (lower f) ".gguf" = true) (sorted_names entries))
     ∧ (main_models_dir S E args = get_models_dir E →
        ∃ l, list_models E w = Ok l
          ∧ stdout (snd (Script.main S E args w))
            = stdout w ++ listing S (main_models_dir S E args) w l.*1)).
Proof.
  intros Hl. unfold Script.main. fold (main_models_dir S E args). rewrite Hl.
  set (md := main_models_dir S E args).
  unfold isdir, listdir.
  destruct (fs w !! md) as [[t c|[entries|]]|] eqn:Hmd; cbn [negb].
  1,4: repeat split; done.
  2: { repeat split; try done. by eexists. }
  rewrite sorted_filter.
  set (names := filter _ (sorted_names entries)).
  assert (∀ w1,
            (match names with
             | [] => (Ok 0, with_print (Line ("No .gguf files in " +:+ md)) w)
             | _ :: _ =>
                 (Ok 0,
                  fold_left (λ w n, with_print (Script.list_line S md w n) w) names
                    (with_print (Line ("Models in " +:+ md +:+ ":")) w))
             end : Result Z * World) = w1 →
            fst w1 = Ok 0 ∧ fs (snd w1) = fs w ∧ clock (snd w1) = clock w
            ∧ requests (snd w1) = requests w ∧ progress (snd w1) = progress w
            ∧ stdout (snd w1) = stdout w ++ listing S md w names) as Hres.
  { intros w1 <-. unfold listing. destruct names as [|n names']; [done|].
    cbn [fst snd].
    destruct (list_lines S md (n :: names')
                (with_print (Line ("Models in " +:+ md +:+ ":")) w))
      as (Hfs & Hc & Hr & Hp & Hs).
    cbn zeta in *. rewrite Hfs, Hc, Hr, Hp, Hs. repeat split.
    cbn [with_print stdout]. by rewrite <- List.app_assoc. }
  destruct (Hres _ eq_refl) as (H0 & Hfs & Hc & Hr & Hp & Hs).
  split; [done|]. split; [done|]. split; [done|].
  intros entries' [= <-]. split; [done|]. split; [done|].
  intros Heq. unfold list_models, isdir, listdir. rewrite <- Heq. fold md.
  rewrite Hmd. cbn [negb]. eexists. split; [done|].
  by rewrite fmap_pair_fst.
Qed.

Lemma main_list_spec_witness :
  fst (Script.main posix_sys offline_env list_args detect_world) = Ok 0
  ∧ stdout (snd (Script.main posix_sys offline_env list_args detect_world))
    = stdout detect_world
      ++ listing posix_sys (main_models_dir posix_sys offline_env list_args)
           detect_world
           (filter (λ f, endswith (lower f) ".gguf" = true)
              (sorted_names ["a.gguf"; "sub"; "readme.txt"]))
  ∧ ∃ l, list_models offline_env detect_world = Ok l
      ∧ stdout (snd (Script.main posix_sys offline_env list_args detect_world))
        = stdout detect_world
          ++ listing posix_sys (main_models_dir posix_sys offline_env list_args)
               detect_world l.*1.
Proof.
  destruct (main_list_spec posix_sys offline_env list_args detect_world eq_refl)
    as (_ & _ & _ & H).
  destruct (H ["a.gguf"; "sub"; "readme.txt"]) as (H0 & Hs & Hl).
  - vm_compute. reflexivity.
  - split; [exact H0|]. split; [exact Hs|]. apply Hl. vm_compute. reflexivity.
Defined.

Example main_list_values :
  Script.main posix_sys offline_env list_args detect_world
  = (Ok 0,
     with_print (Line "  a.gguf  (0.0 MiB)")
       (with_print (Line "Models in /home/u/.config/Thonny/models:") detect_world))
  ∧ fst (Script.main posix_sys offline_env list_args store_world) = Ok 0.
Proof. vm_compute. done. Qed.



(** When [main] returns 0 after it was asked for a download, whether it
    downloaded or skipped, the path it prints last is a regular file whose
    name carries the extension. *)
Theorem main_success_leaves_file (S : Script.Sys) (E : Env) (args : Script.Args)
    (w : World) :
  Script.arg_list args = false →
  fst (Script.main S E args w) = Ok 0 →
  ∃ dest_path,
    last (stdout (snd (Script.main S E args w))) = Some (set_path_line dest_path)
    ∧ isfile (snd (Script.main S E args w)) dest_path = true
    ∧ endswith (lower dest_path) ".gguf" = true.
Proof.
  intros Hl. unfold Script.main. fold (main_models_dir S E args). rewrite Hl.
  set (source := if truthy (default "" (Script.arg_url args)) then _ else _).
  destruct source as [[url name]|]; [|done].
  destruct (Script.download_file _ _ _ _ _) as [[b|e] w1] eqn:Hd; [|done].
  intros _. eexists. cbn [snd]. split; [|split].
  - cbn [with_print stdout]. by rewrite last_snoc.
  - apply script_download_ok_isfile in Hd. exact Hd.
  - apply main_dest_gguf.
Qed.

Lemma main_success_leaves_file_witness :
  ∃ dest_path,
    last (stdout (snd (Script.main posix_sys serving_env url_args one_model_world)))
    = Some (set_path_line dest_path)
    ∧ isfile (snd (Script.main posix_sys serving_env url_args one_model_world))
        dest_path = true
    ∧ endswith (lower dest_path) ".gguf" = true.
Proof.
  apply (main_success_leaves_file posix_sys serving_env url_args one_model_world).
  - reflexivity.
  - vm_compute. reflexivity.
Defined.



Example main_values :
  fst (Script.main posix_sys serving_env url_args one_model_world) = Ok 0
  ∧ fs (snd (Script.main posix_sys serving_env url_args one_model_world))
      !! "/home/u/.config/Thonny/models/b.gguf"
    = Some (File 100 [Byte.x61; Byte.x62; Byte.x63])
  ∧ Script.url_tail "https://h/dir/b.gguf?download=true" = "b.gguf"
  ∧ Script.url_tail "https://h/dir/" = "dir"
  ∧ fst (Script.main posix_sys offline_env no_args one_model_world) = Ok 1.
Proof. vm_compute. done. Qed.

End ScriptSpec.

(** ** Getting ready for a chat: [get_ready] *)

Module ReadySpec.
Import PyStr OsPath Py Os Assistant Notions Fixtures.

Lemma check_agent_true H cfg seen cfg' seen' :
  check_agent H cfg seen = (true, cfg', seen') →
  cfg' = cfg ∧ seen' = seen ∧ ∃ agent, _get_agent H cfg = Ok agent.
Proof.
  unfold check_agent. destruct (_get_agent H cfg) as [agent|e]; [|done].
  intros [= <- <-]. eauto.
Qed.

Lemma show_config_dialog_backend answer cfg :
  backend (show_config_dialog answer cfg) = backend cfg
  ∧ llama_model_path (show_config_dialog answer cfg) = llama_model_path cfg
  ∧ base_url (show_config_dialog answer cfg) = base_url cfg.
Proof.
  unfold show_config_dialog, on_click_ok_button.
  destruct answer as [entry|]; [|done]. by destruct (truthy (strip entry)).
Qed.

(** Once [get_ready] has returned [True], [complete_chat] on the options
    it left does not answer with a setup or loading error: either the
    local model is loaded and the conversation goes to it, or the agent
    can be built and the conversation goes to the agent. For the local
    backend with a model path this needs the model file to be still
    there, which [get_ready] does not look at. *)
Theorem get_ready_then_chat (H : Host) (answer : option string) (cfg cfg' : Config)
    (sh : Shared) (seen : list shown) (w : World) (context : ChatContext) :
  get_ready H answer cfg sh = (true, cfg', seen) →
  messages context ≠ [] →
  (backend cfg = "local" → truthy (strip (llama_model_path cfg)) = true →
   isfile w (strip (llama_model_path cfg)) = true) →
  (∃ llm, _llama_instance sh = Some llm
     ∧ complete_chat H cfg' w sh context = local_completion H cfg' llm context)
  ∨ (∃ agent, _get_agent H cfg' = Ok agent
       ∧ complete_chat H cfg' w sh context = remote_completion H cfg' context).
Proof.
  intros Hr Hm Hfile. unfold complete_chat.
  destruct (messages context) as [|m ms] eqn:Hmsgs; [done|]. clear Hm.
  unfold get_ready in Hr.
  destruct (bool_decide (backend cfg = "api")) eqn:Hapi.
  - apply bool_decide_eq_true_1 in Hapi.
    assert (bool_decide (backend cfg' = "local") = false) as Hnl.
    { destruct (negb _ && negb _) in Hr.
      - destruct (negb (truthy (default "" (api_key (show_config_dialog answer cfg)))));
          [done|].
        apply check_agent_true in Hr as (-> & _ & _).
        destruct (show_config_dialog_backend answer cfg) as (-> & _ & _).
        rewrite Hapi. done.
      - apply check_agent_true in Hr as (-> & _ & _). rewrite Hapi. done. }
    rewrite Hnl. cbn [andb]. right.
    destruct (negb _ && negb _) in Hr.
    + destruct (negb (truthy (default "" (api_key (show_config_dialog answer cfg)))));
        [done|].
      apply check_agent_true in Hr as (-> & _ & [agent Ha]). eauto.
    + apply check_agent_true in Hr as (-> & _ & [agent Ha]). eauto.
  - destruct (bool_decide (backend cfg = "local")) eqn:Hloc.
    + apply bool_decide_eq_true_1 in Hloc.
      destruct (truthy (strip (llama_model_path cfg))) eqn:Hp.
      * unfold _get_llama_model in *.
        destruct (_llama_instance sh) as [llm|] eqn:Hi.
        -- injection Hr as <- <-. left. exists llm. split; [done|].
           rewrite Hloc, Hp, (Hfile Hloc eq_refl). done.
        -- by destruct (truthy (default "" (_llama_load_error sh))).
      * destruct (negb (truthy (strip (base_url cfg)))); [done|].
        apply check_agent_true in Hr as (-> & _ & [agent Ha]).
        right. exists agent. split; [done|].
        by rewrite Hp, andb_false_r.
    + apply check_agent_true in Hr as (-> & _ & [agent Ha]).
      right. exists agent. split; [done|]. by rewrite Hloc.
Qed.

Lemma get_ready_then_chat_witness :
  (∃ llm, _llama_instance loaded = Some llm
     ∧ complete_chat plain_host local_cfg model_world loaded scenario4
       = local_completion plain_host local_cfg llm scenario4)
  ∨ (∃ agent, _get_agent plain_host local_cfg = Ok agent
       ∧ complete_chat plain_host local_cfg model_world loaded scenario4
         = remote_completion plain_host local_cfg scenario4).
Proof.
  apply (get_ready_then_chat plain_host None local_cfg local_cfg loaded []
           model_world scenario4).
  - reflexivity.
  - discriminate.
  - intros _ _. vm_compute. reflexivity.
Defined.

(** [get_ready] tells the user why it refuses: whenever it returns
    [False] it has shown something, and the last thing shown is a message
    box unless the key dialog was left without a key; whenever it returns
    [True] it has shown no message box. It changes no option, and the
    stored key only through the key dialog, to the stripped text
    entered. *)
Theorem get_ready_feedback (H : Host) (answer : option string) (cfg : Config)
    (sh : Shared) :
  ∃ ok cfg' seen,
    get_ready H answer cfg sh = (ok, cfg', seen)
    ∧ (ok = false →
       seen = [KeyDialog] ∨ ∃ before title message,
         (seen = before ++ [ErrorBox title message]
          ∨ seen = before ++ [InfoBox title message])
         ∧ (before = [] ∨ before = [KeyDialog]))
    ∧ (ok = true → seen = [] ∨ seen = [KeyDialog])
    ∧ (cfg' = cfg
       ∨ ∃ entry, answer = Some entry ∧ truthy (strip entry) = true
           ∧ cfg' = set_api_key (strip entry) cfg
           ∧ seen ≠ []).
Proof.
  assert (∀ c seen0, (seen0 = [] ∨ seen0 = [KeyDialog]) →
            ∃ ok seen,
              check_agent H c seen0 = (ok, c, seen)
              ∧ (ok = false →
                 ∃ before title message,
                   (seen = before ++ [ErrorBox title message]
                    ∨ seen = before ++ [InfoBox title message])
                   ∧ (before = [] ∨ before = [KeyDialog]))
              ∧ (ok = true → seen = seen0)) as Hcheck.
  { intros c seen0 Hs. unfold check_agent.
    destruct (_get_agent H c) as [agent|e].
    - exists true, seen0. repeat split; done.
    - eexists false, _. split; [done|]. split; [|done].
      intros _. eexists seen0, _, _. split; [by left|done]. }
  unfold get_ready.
  destruct (bool_decide (backend cfg = "api")).
  - destruct (negb _ && negb _).
    + assert (show_config_dialog answer cfg = cfg
              ∨ ∃ entry, answer = Some entry ∧ truthy (strip entry) = true
                  ∧ show_config_dialog answer cfg = set_api_key (strip entry) cfg)
        as Hdlg.
      { unfold show_config_dialog, on_click_ok_button.
        destruct answer as [entry|]; [|by left].
        destruct (truthy (strip entry)) eqn:He; [|by left]. right. by exists entry. }
      destruct (negb (truthy (default "" (api_key (show_config_dialog answer cfg))))).
      * eexists false, _, _. split; [done|]. split; [by left|]. split; [done|].
        destruct Hdlg as [->|(entry & -> & He & ->)]; [by left|].
        right. exists entry. done.
      * destruct (Hcheck (show_config_dialog answer cfg) [KeyDialog])
          as (ok & seen & -> & Hf & Ht); [by right|].
        exists ok, (show_config_dialog answer cfg), seen. split; [done|].
        split; [by right; apply Hf|]. split; [by right; apply Ht|].
        destruct Hdlg as [->|(entry & -> & He & ->)]; [by left|].
        right. exists entry. repeat split; try done.
        destruct ok; [by rewrite Ht|].
        destruct (Hf eq_refl) as (b & t & m & [->| ->] & _); by destruct b.
    + destruct (Hcheck cfg []) as (ok & seen & -> & Hf & Ht); [by left|].
      exists ok, cfg, seen. split; [done|]. split; [by right; apply Hf|].
      split; [by left; apply Ht|]. by left.
  - destruct (bool_decide (backend cfg = "local")).
    + destruct (truthy (strip (llama_model_path cfg))).
      * unfold _get_llama_model. destruct (_llama_instance sh).
        -- exists true, cfg, []. repeat split; try done; by left.
        -- destruct (truthy (default "" (_llama_load_error sh))).
           ++ eexists false, cfg, _. split; [done|]. split; [|split; [done|by left]].
              intros _. right. eexists [], _, _. split; [by left|by left].
           ++ eexists false, cfg, _. split; [done|]. split; [|split; [done|by left]].
              intros _. right. eexists [], _, _. split; [by right|by left].
      * destruct (negb (truthy (strip (base_url cfg)))).
        -- eexists false, cfg, _. split; [done|]. split; [|split; [done|by left]].
           intros _. right. eexists [], _, _. split; [by left|by left].
        -- destruct (Hcheck cfg []) as (ok & seen & -> & Hf & Ht); [by left|].
           exists ok, cfg, seen. split; [done|]. split; [by right; apply Hf|].
           split; [by left; apply Ht|]. by left.
    + destruct (Hcheck cfg []) as (ok & seen & -> & Hf & Ht); [by left|].
      exists ok, cfg, seen. split; [done|]. split; [by right; apply Hf|].
      split; [by left; apply Ht|]. by left.
Qed.



Example get_ready_values :
  get_ready plain_host (Some " sk-1 ") fresh_cfg startup_shared
  = (true, set_api_key "sk-1" fresh_cfg, [KeyDialog])
  ∧ get_ready plain_host None fresh_cfg startup_shared = (false, fresh_cfg, [KeyDialog])
  ∧ get_ready plain_host None local_cfg loaded = (true, local_cfg, [])
  ∧ get_ready plain_host None local_cfg startup_shared
    = (false, local_cfg,
       [InfoBox "Model loading" "Local model is still loading. Try again in a moment."]).
Proof. vm_compute. done. Qed.

End ReadySpec.

(** ** Startup: detection, load, and the first chat *)

Module StartupSpec.
Import PyStr OsPath Py Os Assistant Notions Fixtures EnsureSpec.

Lemma gguf_truthy (w : World) (f : string) :
  _is_probably_gguf w f = true → truthy f = true ∧ isfile w f = true.
Proof.
  unfold _is_probably_gguf. intros [Hf He]%andb_true_iff. split; [|done].
  by destruct f.
Qed.

(** When a model is to be looked for and one is found, the options come
    out with the local backend and the path found, and are otherwise as
    before. *)
Lemma ensure_detects (E : Env) (w : World) (cfg : Config) (f : string) :
  truthy (strip (base_url cfg)) = false →
  truthy (strip (llama_model_path cfg)) && isfile w (strip (llama_model_path cfg))
  = false →
  backend cfg = "local" ∨ (backend cfg = "api" ∧ no_api_key cfg = true) →
  _find_local_gguf_model E w = Ok (Some f) →
  ∃ cfg', _ensure_local_model_configured E w cfg = Ok cfg'
    ∧ backend cfg' = "local" ∧ llama_model_path cfg' = f
    ∧ llama_chat_format cfg' = llama_chat_format cfg
    ∧ llama_n_ctx cfg' = llama_n_ctx cfg.
Proof.
  intros Hu Hp Hb Hfind.
  destruct (find_local_ok E w) as (r & Hr & Hg). rewrite Hfind in Hr.
  injection Hr as <-. destruct (gguf_truthy w f (Hg f eq_refl)) as [Htf _].
  unfold _ensure_local_model_configured. rewrite Hu, Hfind.
  cbn [default from_option id]. rewrite Htf.
  destruct cfg as [b m bu p cf n mt th ins key].
  unfold no_api_key, set_backend, set_llama_model_path in *.
  cbn [backend llama_model_path api_key base_url] in *.
  destruct (truthy (strip p)) eqn:Htp; cbn [andb] in Hp;
    rewrite ?Hp; norm_cfg; rewrite ?Htp.
  all: destruct Hb as [->|[-> Hk]].
  all: try change (bool_decide ("local" = "local")) with true.
  all: try change (bool_decide ("local" = "api")) with false.
  all: try change (bool_decide ("api" = "local")) with false.
  all: try change (bool_decide ("api" = "api")) with true.
  all: norm_cfg; rewrite ?Hk; norm_cfg.
  all: eexists; split; [reflexivity|]; done.
Qed.

(** From startup to the first chat. When [WorkbenchReady] comes with no
    base URL and no usable model path configured, with the local backend
    or with the API backend and no key, and a model file is found whose
    path has no blank at its ends, then, once the one load thread has run
    (the engine being importable and accepting the file), the found model
    is the loaded one, [get_ready] returns [True] without showing
    anything, and every conversation that is not empty goes to that
    model. *)
Theorem startup_chat_ready (E : Env) (H : Host) (w : World) (cfg : Config)
    (f : string) :
  truthy (strip (base_url cfg)) = false →
  truthy (strip (llama_model_path cfg)) && isfile w (strip (llama_model_path cfg))
  = false →
  backend cfg = "local" ∨ (backend cfg = "api" ∧ no_api_key cfg = true) →
  _find_local_gguf_model E w = Ok (Some f) →
  strip f = f →
  llama_cpp_import H = None →
  (∀ job, Llama_init H job = None) →
  ∃ cfg' p job,
    _on_workbench_ready E w cfg startup = Ok (cfg', p)
    ∧ backend cfg' = "local" ∧ llama_model_path cfg' = f
    ∧ model_path job = f
    ∧ n_ctx job = normalize_n_ctx (llama_n_ctx cfg)
    ∧ shared (run H cfg' w p [Run 0%nat; Run 0%nat; Run 0%nat])
      = {| _llama_instance := Some job; _llama_load_error := None |}
    ∧ (∀ answer,
         get_ready H answer cfg'
           (shared (run H cfg' w p [Run 0%nat; Run 0%nat; Run 0%nat]))
         = (true, cfg', []))
    ∧ (∀ context, messages context ≠ [] →
         complete_chat H cfg' w
           (shared (run H cfg' w p [Run 0%nat; Run 0%nat; Run 0%nat])) context
         = local_completion H cfg' job context).
Proof.
  intros Hu Hp Hb Hfind Hs Himp Hinit.
  destruct (ensure_detects E w cfg f Hu Hp Hb Hfind)
    as (cfg' & Hens & Hloc & Hpath & Hcf & Hn).
  destruct (find_local_ok E w) as (r & Hr & Hg). rewrite Hfind in Hr.
  injection Hr as <-. destruct (gguf_truthy w f (Hg f eq_refl)) as [Htf Hif].
  assert (∃ job, preload_args cfg' w = Some job ∧ model_path job = f
                 ∧ n_ctx job = normalize_n_ctx (llama_n_ctx cfg))
    as (job & Hjob & Hmp & Hctx).
  { unfold preload_args. rewrite Hpath, Hs, Htf, Hif, Hn. cbn [negb orb].
    eexists. split; [reflexivity|]. done. }
  assert (shared (run H cfg' w (_start_llama_preload startup)
                    [Run 0%nat; Run 0%nat; Run 0%nat])
          = {| _llama_instance := Some job; _llama_load_error := None |}) as Hrun.
  { unfold run, _start_llama_preload, startup.
    cbn [fold_left act threads shared app lookup list_lookup thread_step].
    rewrite Hjob, Himp.
    cbn [fold_left act threads shared app lookup list_lookup thread_step
         insert list_insert].
    rewrite Hinit.
    cbn [fold_left act threads shared app lookup list_lookup thread_step
         insert list_insert].
    done. }
  exists cfg', (_start_llama_preload startup), job.
  unfold _on_workbench_ready. rewrite Hens, Hrun.
  split; [done|]. split; [done|]. split; [done|]. split; [done|].
  split; [done|]. split; [done|]. split.
  - intros answer. unfold get_ready. rewrite Hloc, Hpath, Hs, Htf. done.
  - intros context Hm. unfold complete_chat.
    destruct (messages context); [done|].
    rewrite Hloc, Hpath, Hs, Htf, Hif. done.
Qed.

Lemma startup_chat_ready_witness :
  ∃ cfg' p job,
    _on_workbench_ready offline_env detect_world default_config startup = Ok (cfg', p)
    ∧ backend cfg' = "local" ∧ llama_model_path cfg' = "/home/u/Downloads/B.GGUF"
    ∧ model_path job = "/home/u/Downloads/B.GGUF"
    ∧ n_ctx job = normalize_n_ctx (llama_n_ctx default_config)
    ∧ shared (run plain_host cfg' detect_world p [Run 0%nat; Run 0%nat; Run 0%nat])
      = {| _llama_instance := Some job; _llama_load_error := None |}
    ∧ (∀ answer,
         get_ready plain_host answer cfg'
           (shared (run plain_host cfg' detect_world p
                      [Run 0%nat; Run 0%nat; Run 0%nat]))
         = (true, cfg', []))
    ∧ (∀ context, messages context ≠ [] →
         complete_chat plain_host cfg' detect_world
           (shared (run plain_host cfg' detect_world p
                      [Run 0%nat; Run 0%nat; Run 0%nat])) context
         = local_completion plain_host cfg' job context).
Proof.
  apply (startup_chat_ready offline_env plain_host detect_world default_config
           "/home/u/Downloads/B.GGUF").
  - reflexivity.
  - reflexivity.
  - right. split; reflexivity.
  - vm_compute. reflexivity.
  - vm_compute. reflexivity.
  - reflexivity.
  - intros job. reflexivity.
Defined.

End StartupSpec.
